(** * PhishNet: the heuristic risk engine and its refinement adapter

    A shallow embedding of [backend/ai_model.py] and of the route of
    [backend/app.py].

    Conventions of the embedding.
    - A Python [str] is the list of its code points, a [list N]; [py]
      turns an ASCII literal into one.  What Python does with the code
      points above 127 ([str.strip], [str.lower], the class [\d] of [re])
      is read from the Unicode tables of the interpreter, which are
      parameters here (the class [Python]), as is [int] on a string; on
      the code points below 128 the functions are written out.
    - A Python [int] is a [Z]; a [float] coming out of [json.loads] is a
      [spec_float].  The keys of a dict are held as Rocq strings: they
      are only looked up.
    - The two imported libraries ([urlextract], [tldextract]) are module
      level objects with a state of their own (cached suffix lists); they
      are parameters of the engine, in state passing style over an
      arbitrary state type [W], and each call to them may raise.
    - The remote model, [json.loads], [json.dumps], [str] on arbitrary
      values and [os.getenv] are parameters of the adapter.
    - Only exceptions deriving from [Exception] are modelled. *)

From Stdlib Require Import ZArith String Ascii List Lia Bool.
From Stdlib Require Import Numbers.DecimalString Floats.SpecFloat.
From stdpp Require Import base gmap strings list.

Open Scope Z_scope.

(** ** Strings, exceptions and what the interpreter provides *)

(** A [str]: its code points. *)
Abbreviation str := (list N).

(** The code point of an ASCII character. *)
Definition ch (a : ascii) : N := N_of_ascii a.

(** An ASCII literal as a [str]. *)
Definition py (s : string) : str := map N_of_ascii (list_ascii_of_string s).

Arguments ch : simpl never.
Arguments py : simpl never.

(** The exceptions the code can meet; all of them derive from [Exception]. *)
Inductive exn : Type :=
  | ValueError
  | TypeError
  | OverflowError
  | AttributeError
  | JSONDecodeError
  | RemoteError (msg : string)
  | LibraryError (msg : string).

(** A computation that returns or raises. *)
Definition Exc (A : Type) : Type := exn + A.

Definition Return {A : Type} (a : A) : Exc A := inr a.
Definition Raise {A : Type} (e : exn) : Exc A := inl e.

Definition bind_exc {A B : Type} (c : Exc A) (k : A -> Exc B) : Exc B :=
  match c with
  | inl e => inl e
  | inr a => k a
  end.

(** [try: body  except Exception as e: handler] *)
Definition try_except {A : Type} (body : Exc A) (handler : exn -> Exc A) : Exc A :=
  match body with
  | inl e => handler e
  | inr a => inr a
  end.

Notation "'do' x <- c ; k" := (bind_exc c (fun x => k))
  (at level 10, x name, c at level 100, k at level 200).

(** What the interpreter knows and the code does not spell out: the
    Unicode tables above the ASCII range, and [int] on a string. *)
Class Python : Type := {
  (** [c.isspace()] for a code point above 127 *)
  uni_isspace : N -> bool;
  (** whether a code point above 127 is a decimal digit, the class [\d] *)
  uni_isdecimal : N -> bool;
  (** [s.lower()] for a string with a code point above 127 *)
  uni_lower : str -> str;
  (** [int(s)] for a string [s] *)
  int_of_str : str -> Exc Z
}.

(** ** Python strings *)

Module PyStr.

Definition is_ascii (c : N) : bool := (c <? 128)%N.

(** [[A-Z]] *)
Definition isupper (c : N) : bool := ((65 <=? c) && (c <=? 90))%N.

Definition lower_char (c : N) : N := if isupper c then (c + 32)%N else c.

(** [s.startswith(p)] *)
Fixpoint startswith (p s : str) : bool :=
  match p, s with
  | [], _ => true
  | a :: p', b :: s' => if (a =? b)%N then startswith p' s' else false
  | _ :: _, [] => false
  end.

(** [sub in s] *)
Fixpoint contains (sub s : str) : bool :=
  startswith sub s ||
  match s with
  | [] => false
  | _ :: r => contains sub r
  end.

(** [s.count(c)] for a pattern of one character. *)
Fixpoint count (c : N) (s : str) : nat :=
  match s with
  | [] => O
  | b :: r => if (b =? c)%N then S (count c r) else count c r
  end.

(** [sep.join(l)] *)
Fixpoint join (sep : str) (l : list str) : str :=
  match l with
  | [] => []
  | x :: l' =>
      match l' with
      | [] => x
      | _ :: _ => x ++ sep ++ join sep l'
      end
  end.

(** [str(n)] for a non-negative [int]. *)
Definition of_nat (n : nat) : str := py (NilEmpty.string_of_uint (Nat.to_uint n)).

(** [s.find(c)] for a pattern of one character: the first index, or -1. *)
Fixpoint find (c : N) (s : str) : Z :=
  match s with
  | [] => -1
  | b :: r =>
      if (b =? c)%N then 0
      else let i := find c r in if i =? -1 then -1 else i + 1
  end.

(** [s.rfind(c)] for a pattern of one character: the last index, or -1. *)
Fixpoint rfind (c : N) (s : str) : Z :=
  match s with
  | [] => -1
  | b :: r =>
      let i := rfind c r in
      if i =? -1 then (if (b =? c)%N then 0 else -1) else i + 1
  end.

(** [s[i:j]] for indices that are not negative. *)
Definition slice (i j : Z) (s : str) : str :=
  take (Z.to_nat (j - i)) (drop (Z.to_nat i) s).

(** The double quote character, as a one character string. *)
Definition dquote : str := [34%N].

(** The line feed, as a one character string. *)
Definition nl : str := [10%N].

Section Tables.

Context `{Python}.

(** [c.isspace()]: below 128 these are TAB, LF, VT, FF, CR, the four
    separators FS, GS, RS, US and the blank. *)
Definition isspace (c : N) : bool :=
  if is_ascii c
  then ((9 <=? c) && (c <=? 13) || (28 <=? c) && (c <=? 32))%N
  else uni_isspace c.

(** The class [\d] of a [str] pattern: below 128 the digits 0 to 9. *)
Definition isdigit (c : N) : bool :=
  if is_ascii c
  then ((48 <=? c) && (c <=? 57))%N
  else uni_isdecimal c.

(** [s.lower()]: on an ASCII string the capitals A to Z are lowered. *)
Definition lower (s : str) : str :=
  if forallb is_ascii s then map lower_char s else uni_lower s.

(** [s.lstrip()] *)
Fixpoint lstrip (s : str) : str :=
  match s with
  | [] => []
  | c :: r => if isspace c then lstrip r else s
  end.

(** [s.rstrip()] *)
Fixpoint rstrip (s : str) : str :=
  match s with
  | [] => []
  | c :: r =>
      match rstrip r with
      | [] => if isspace c then [] else [c]
      | r' => c :: r'
      end
  end.

(** [s.strip()] *)
Definition strip (s : str) : str := rstrip (lstrip s).

End Tables.

End PyStr.

(** ** The two regular expressions of the engine *)

Module Re.
Import PyStr.

(** [re.search(r"[A-Z]{6,}", s)]: [need] counts the capitals still
    missing from the run that starts here. *)
Fixpoint caps_from (need : nat) (s : str) : bool :=
  match need with
  | O => true
  | S k =>
      match s with
      | [] => false
      | c :: r => if isupper c then caps_from k r else false
      end
  end.

Fixpoint search_caps6 (s : str) : bool :=
  caps_from 6 s ||
  match s with
  | [] => false
  | _ :: r => search_caps6 r
  end.

(** Drop a literal prefix. *)
Fixpoint lit (p s : str) : option str :=
  match p, s with
  | [], _ => Some s
  | a :: p', b :: s' => if (a =? b)%N then lit p' s' else None
  | _ :: _, [] => None
  end.

(** [s?] *)
Definition opt_s (s : str) : str :=
  match s with
  | c :: r => if (c =? ch "s")%N then r else s
  | [] => s
  end.

Section Tables.

Context `{Python}.

(** Drop the longest run of digits. *)
Fixpoint skip_digits (s : str) : str :=
  match s with
  | c :: r => if isdigit c then skip_digits r else s
  | [] => []
  end.

(** [\d+]: one digit at least, then greedily the rest.  What follows
    [\d+] in the pattern is never a digit, so the greedy choice is the
    only one that can succeed. *)
Definition digits1 (s : str) : option str :=
  match s with
  | c :: r => if isdigit c then Some (skip_digits r) else None
  | [] => None
  end.

(** [re.match(r"https?://\d+\.\d+\.\d+\.\d+", s)]: what is left of [s]
    after the match, if there is one. *)
Definition match_ip (s : str) : option str :=
  s1 ← lit (py "http") s;
  s2 ← lit (py "://") (opt_s s1);
  s3 ← digits1 s2;
  s4 ← lit (py ".") s3;
  s5 ← digits1 s4;
  s6 ← lit (py ".") s5;
  s7 ← digits1 s6;
  s8 ← lit (py ".") s7;
  digits1 s8.

(** [re.search(r"https?://\d+\.\d+\.\d+\.\d+", s)] *)
Fixpoint search_ip (s : str) : bool :=
  bool_decide (is_Some (match_ip s)) ||
  match s with
  | [] => false
  | _ :: r => search_ip r
  end.

End Tables.

End Re.

(** ** Python values and calls into the libraries *)

(** A value as [json.loads] builds it, which is also what a Verdict holds. *)
#[local] Unset Elimination Schemes.
Inductive pyval : Type :=
  | PNone
  | PBool (b : bool)
  | PInt (z : Z)
  | PFloat (f : spec_float)
  | PStr (s : str)
  | PList (l : list pyval)
  | PDict (d : gmap string pyval).
#[local] Set Elimination Schemes.

(** A computation over the state [W] of the imported libraries, which
    returns or raises. *)
Definition St (W A : Type) : Type := W -> Exc A * W.

Definition ret_st {W A : Type} (a : A) : St W A := fun w => (Return a, w).

(** A result, or an exception, that touches no library. *)
Definition lift_st {W A : Type} (r : Exc A) : St W A := fun w => (r, w).

(** A call, then the rest; an exception of the call ends the computation. *)
Definition bind_st {W A B : Type} (c : St W A) (k : A -> St W B) : St W B :=
  fun w =>
    match c w with
    | (inl e, w') => (inl e, w')
    | (inr a, w') => k a w'
    end.

Notation "'call' x <- c ; k" := (bind_st c (fun x => k))
  (at level 10, x name, c at level 100, k at level 200).

(** Truth value of a string: [if s]. *)
Definition truthy_str (s : str) : bool :=
  match s with
  | [] => false
  | _ :: _ => true
  end.

(** Truth value of a list: [if l]. *)
Definition truthy_list {A : Type} (l : list A) : bool :=
  match l with
  | [] => false
  | _ :: _ => true
  end.

(** Truth value of a string that may be [None]. *)
Definition truthy_opt (o : option str) : bool :=
  match o with
  | None => false
  | Some s => truthy_str s
  end.

(** [a or b] on strings that may be [None]. *)
Definition py_or (a b : option str) : option str :=
  if truthy_opt a then a else b.

(** ** The Verdict *)

Record Verdict : Type := mkVerdict {
  risk_level : pyval;
  score : Z;
  reasons : list pyval;
  suspicious_links : list pyval
}.

(** One entry of [suspicious_links], before it becomes a dict. *)
Record LinkFinding : Type := mkLink {
  url : str;
  domain : str;
  problem : option str
}.

(** [{"url": u, "domain": domain, "problem": problem}] *)
Definition link_dict (l : LinkFinding) : pyval :=
  PDict {[ "url" := PStr (url l);
           "domain" := PStr (domain l);
           "problem" := from_option PStr PNone (problem l) ]}.

(** What [tldextract.extract] returns. *)
Module Tld.
Record ExtractResult : Type := mkExtract {
  subdomain : str;
  domain : str;
  suffix : str
}.
End Tld.

(** ** The heuristic risk engine: [heuristics_analyze] *)

Definition urgent : list str :=
  map py
    ["urgent"; "verify"; "verify your"; "immediately"; "suspend"; "suspended";
     "act now"; "click below"; "deadline"; "your account has been suspended"].

Definition sensitive : list str :=
  map py
    ["password"; "credit card"; "ssn"; "social security"; "account number";
     "acct number"; "routing number"; "bank number"; "login"; "verify identity"].

Definition shorteners : list str :=
  map py ["bit.ly"; "tinyurl.com"; "t.co"; "goo.gl"; "tiny.cc"].

(** [[w for w in words if w in t_low]] *)
Definition found_in (words : list str) (t_low : str) : list str :=
  List.filter (fun w => PyStr.contains w t_low) words.

(** [u if u.startswith("http") else "http://" + u] *)
Definition normalize (u : str) : str :=
  if PyStr.startswith (py "http") u then u else py "http://" ++ u.

(** [f"{ext.domain}.{ext.suffix}" if ext.suffix else ext.domain] *)
Definition registrable (ext : Tld.ExtractResult) : str :=
  if truthy_str (Tld.suffix ext)
  then Tld.domain ext ++ py "." ++ Tld.suffix ext
  else Tld.domain ext.

(** [(problem + "; " + name) if problem else name] *)
Definition problem_add (problem : option str) (name : str) : option str :=
  match problem with
  | Some p => if truthy_str p then Some (p ++ py "; " ++ name) else Some name
  | None => Some name
  end.

Definition shortener_flag (u_norm : str) : bool :=
  existsb (fun s => PyStr.contains s u_norm) shorteners.

Definition hyphen_flag (domain : str) : bool :=
  truthy_str domain && (2 <=? PyStr.count (ch "-") domain)%nat.

(** [score = max(0, min(100, score))] *)
Definition clamp (score : Z) : Z := Z.max 0 (Z.min 100 score).

(** The label mapping. *)
Definition label (score : Z) : str :=
  if 60 <=? score then py "Dangerous"
  else if 30 <=? score then py "Suspicious"
  else py "Safe".

(** The Verdict of the short circuit. *)
Definition empty_verdict : Verdict :=
  {| risk_level := PStr (py "Safe");
     score := 0;
     reasons := [PStr (py "Empty message")];
     suspicious_links := [] |}.

(** The summary of the links: [f"Found {n} link(s) — inspect domains"],
    with its dash, the code point U+2014. *)
Definition found_links (n : nat) : str :=
  py "Found " ++ PyStr.of_nat n ++ py " link(s) " ++ [8212%N] ++ py " inspect domains".

(** What follows the loop: the summary reason, the neutral reason, the
    clamp and the label. *)
Definition finish (reasons : list pyval) (score : Z) (suspicious_links : list pyval) : Verdict :=
  let reasons :=
    if truthy_list suspicious_links
    then reasons ++ [PStr (found_links (length suspicious_links))]
    else reasons in
  let reasons :=
    if negb (truthy_list reasons)
    then reasons ++ [PStr (py "No strong heuristic flags found")]
    else reasons in
  let score := clamp score in
  {| risk_level := PStr (label score);
     score := score;
     reasons := reasons;
     suspicious_links := suspicious_links |}.

Section Engine.

Context `{Python}.

Definition ip_flag (u_norm : str) : bool := Re.search_ip u_norm.

(** The three checks of the loop body, on one URL: the [problem] they
    build and the [score] they leave. *)
Definition link_checks (u_norm domain : str) (score : Z) : option str * Z :=
  let problem : option str := None in
  let '(problem, score) :=
    if ip_flag u_norm
    then (Some (py "IP address used in URL"), score + 20)
    else (problem, score) in
  let '(problem, score) :=
    if shortener_flag u_norm
    then (problem_add problem (py "shortened URL"), score + 12)
    else (problem, score) in
  let '(problem, score) :=
    if hyphen_flag domain
    then (problem_add problem (py "suspicious domain pattern"), score + 6)
    else (problem, score) in
  (problem, score).

(** The four checks on the text itself: urgency, sensitive information,
    exclamation marks, capitals.  [t] is the stripped text. *)
Definition text_checks (t : str) : list pyval * Z :=
  let t_low := PyStr.lower t in
  let reasons : list pyval := [] in
  let score := 0 in
  let found_urgent := found_in urgent t_low in
  let '(reasons, score) :=
    if truthy_list found_urgent
    then (reasons ++ [PStr (py "Urgency language: "
                            ++ PyStr.join (py ", ") (take 5 found_urgent))],
          score + 28)
    else (reasons, score) in
  let found_sensitive := found_in sensitive t_low in
  let '(reasons, score) :=
    if truthy_list found_sensitive
    then (reasons ++ [PStr (py "Requests sensitive info: "
                            ++ PyStr.join (py ", ") (take 5 found_sensitive))],
          score + 30)
    else (reasons, score) in
  let exclam := PyStr.count (ch "!") t in
  let '(reasons, score) :=
    if (2 <=? exclam)%nat
    then (reasons ++ [PStr (py "Contains " ++ PyStr.of_nat exclam
                            ++ py " exclamation mark(s)")],
          score + 6)
    else (reasons, score) in
  let '(reasons, score) :=
    if Re.search_caps6 t
    then (reasons ++ [PStr (py "Contains long ALL-CAPS word(s)")], score + 5)
    else (reasons, score) in
  (reasons, score).

Context {W : Type}.

(** [extractor.find_urls]; it raises when the text holds more URLs than
    its limit. *)
Variable find_urls : str -> St W (list str).

(** [tldextract.extract] *)
Variable tld_extract : str -> St W Tld.ExtractResult.

(** [for u in urls: ...] *)
Fixpoint inspect_urls (urls : list str) (score : Z) (suspicious_links : list pyval)
  : St W (Z * list pyval) :=
  match urls with
  | [] => ret_st (score, suspicious_links)
  | u :: urls' =>
      let u_norm := normalize u in
      call ext <- tld_extract u_norm;
      let domain := registrable ext in
      let '(problem, score) := link_checks u_norm domain score in
      inspect_urls urls' score
        (suspicious_links ++ [link_dict {| url := u; domain := domain; problem := problem |}])
  end.

Definition heuristics_analyze (text : str) : St W Verdict :=
  if negb (truthy_str text) then ret_st empty_verdict
  else
    let t := PyStr.strip text in
    let '(reasons, score) := text_checks t in
    call urls <- find_urls t;
    call r <- inspect_urls urls score [];
    let '(score, suspicious_links) := r in
    ret_st (finish reasons score suspicious_links).

End Engine.

(** ** Coercions of the adapter: [int], [dict.get], [isinstance] *)

(** [int(f)] for a float: truncation toward zero; [nan] and the
    infinities raise. *)
Definition int_of_float (f : spec_float) : Exc Z :=
  match f with
  | S754_zero _ => Return 0
  | S754_infinity _ => Raise OverflowError
  | S754_nan => Raise ValueError
  | S754_finite s m e =>
      let magnitude :=
        if 0 <=? e then Z.pos m * 2 ^ e else Z.pos m / 2 ^ (- e) in
      Return (if s then - magnitude else magnitude)
  end.

(** [int(v)] *)
Definition py_int `{Python} (v : pyval) : Exc Z :=
  match v with
  | PInt z => Return z
  | PBool b => Return (if b then 1 else 0)
  | PFloat f => int_of_float f
  | PStr s => int_of_str s
  | PNone | PList _ | PDict _ => Raise TypeError
  end.

(** [d.get(key, default)]; on a value that is not a dict the attribute
    is missing. *)
Definition py_get (d : pyval) (key : string) (dflt : pyval) : Exc pyval :=
  match d with
  | PDict m => Return (default dflt (m !! key))
  | _ => Raise AttributeError
  end.

(** [v if isinstance(v, list) else other] *)
Definition list_or (v : pyval) (other : list pyval) : list pyval :=
  match v with
  | PList l => l
  | _ => other
  end.

(** Truth value of an arbitrary value: [if v]. *)
Definition truthy (v : pyval) : bool :=
  match v with
  | PNone => false
  | PBool b => b
  | PInt z => negb (z =? 0)
  | PFloat (S754_zero _) => false
  | PFloat _ => true
  | PStr s => truthy_str s
  | PList l => truthy_list l
  | PDict d => negb (bool_decide (d = ∅))
  end.

(** What the route answers: the Verdict, the client error, or the
    server error that wraps an exception of the analysis. *)
Inductive Response : Type :=
  | Ok200 (result : Verdict)
  | Error400
  | Error500 (e : exn).

(** [try: body  except Exception as e: handler], around calls into the
    libraries. *)
Definition try_st {W A : Type} (body : St W A) (handler : exn -> St W A) : St W A :=
  fun w =>
    match body w with
    | (inl e, w') => handler e w'
    | (inr a, w') => (inr a, w')
    end.

(** ** The refinement adapter: [call_llm_to_refine] and [analyze_text] *)

Section Adapter.

Context `{Python}.

(** [os.getenv] *)
Variable getenv : str -> option str.

(** Whether [google.generativeai] could be imported and configured. *)
Variable _HAS_GEMINI : bool.

(** [genai.GenerativeModel("gemini-1.5-flash").generate_content(prompt).text]:
    the text of the answer, or the exception of the one remote call. *)
Variable generate_content : str -> Exc str.

(** [json.loads] *)
Variable json_loads : str -> Exc pyval.

(** [json.dumps(v, indent=2)] on a Verdict, which always serialises. *)
Variable json_dumps : Verdict -> str.

(** [str] on an arbitrary value. *)
Variable py_str : pyval -> str.

Definition schema_lines : list str :=
  let q := PyStr.dquote in
  [ py "{";
    py "  " ++ q ++ py "risk_level" ++ q ++ py ": " ++ q ++ py "Safe|Suspicious|Dangerous" ++ q ++ py ",";
    py "  " ++ q ++ py "score" ++ q ++ py ": 0-100,";
    py "  " ++ q ++ py "reasons" ++ q ++ py ": [" ++ q ++ py "string" ++ q ++ py ", " ++ q ++ py "..." ++ q ++ py "],";
    py "  " ++ q ++ py "suspicious_links" ++ q ++ py ": [{" ++ q ++ py "url" ++ q ++ py ": " ++ q ++ py "..." ++ q
         ++ py ", " ++ q ++ py "problem" ++ q ++ py ": " ++ q ++ py "..." ++ q ++ py "}]";
    [];
    py "}" ].

Definition _build_llm_prompt (text : str) (heuristics_output : Verdict) : str :=
  let q3 := PyStr.dquote ++ PyStr.dquote ++ PyStr.dquote in
  PyStr.join PyStr.nl
    ([ [];
       py "You are a concise cybersecurity assistant. The user will provide an email message.";
       py "Task: Classify the email as one of: Safe, Suspicious, Dangerous.";
       py "Also return a numeric risk score 0-100, a short list of reasons, and a list of suspicious links with brief issues.";
       [];
       py "Important: Respond with VALID JSON only, matching this schema exactly:" ]
     ++ schema_lines ++
     [ [];
       py "Email message:";
       q3 ++ text ++ py " " ++ q3;
       [];
       py "Heuristics summary (for context):";
       json_dumps heuristics_output;
       [];
       py "Return the JSON and nothing else.";
       [] ]).

(** The dict built from the parsed answer. *)
Definition sanitize (heuristics_output : Verdict)
    (parsed_level : pyval) (parsed_score : Z) (parsed_reasons parsed_links : pyval) : Verdict :=
  {| risk_level := parsed_level;
     score := Z.max 0 (Z.min 100 parsed_score);
     reasons := list_or parsed_reasons [PStr (py_str parsed_reasons)];
     suspicious_links := list_or parsed_links (suspicious_links heuristics_output) |}.

(** The body of the [try] block. *)
Definition refine_body (prompt : str) (heuristics_output : Verdict) : Exc Verdict :=
  do response_text <- generate_content prompt;
  let text_out := PyStr.strip response_text in
  let json_start := PyStr.find (ch "{") text_out in
  let json_end := PyStr.rfind (ch "}") text_out in
  if negb (json_start =? -1) && negb (json_end =? -1) && (json_end >? json_start)
  then
    let json_text := PyStr.slice json_start (json_end + 1) text_out in
    do parsed <- json_loads json_text;
    do score_value <- py_get parsed "score" (PInt (score heuristics_output));
    do parsed_score <- py_int score_value;
    do parsed_level <- py_get parsed "risk_level" (risk_level heuristics_output);
    do parsed_reasons <- py_get parsed "reasons" (PList (reasons heuristics_output));
    do parsed_links <- py_get parsed "suspicious_links" (PList (suspicious_links heuristics_output));
    Return (sanitize heuristics_output parsed_level parsed_score parsed_reasons parsed_links)
  else Return heuristics_output.

Definition call_llm_to_refine (text : str) (heuristics_output : Verdict) : Exc Verdict :=
  let api_key := py_or (getenv (py "GEMINI_API_KEY")) (getenv (py "OPENAI_API_KEY")) in
  if negb (truthy_opt api_key) || negb _HAS_GEMINI then Return heuristics_output
  else
    let prompt := _build_llm_prompt text heuristics_output in
    try_except (refine_body prompt heuristics_output)
               (fun e => Return heuristics_output).

Context {W : Type}.
Variable find_urls : str -> St W (list str).
Variable tld_extract : str -> St W Tld.ExtractResult.

(** [heur = heuristics_analyze(text)], outside any [try], then the
    adapter. *)
Definition analyze_text (text : str) : St W Verdict :=
  call heur <- heuristics_analyze find_urls tld_extract text;
  let final := call_llm_to_refine text heur in
  lift_st final.

(** *** The route of [app.py] *)

(** [request.get_json(silent=True) or {}], then [payload.get] of the key
    "text" with the empty string as default, the guard
    [not text or not text.strip()], then the call inside its [try].  An
    exception raised before the [try] is left to the web framework. *)
Definition analyze (body : option pyval) : St W Response :=
  let payload := match body with
                 | Some v => if truthy v then v else PDict ∅
                 | None => PDict ∅
                 end in
  match py_get payload "text" (PStr []) with
  | inl e => lift_st (Raise e)
  | inr text =>
      if negb (truthy text) then ret_st Error400
      else match text with
           | PStr s =>
               if negb (truthy_str (PyStr.strip s)) then ret_st Error400
               else
                 try_st (call result <- analyze_text s; ret_st (Ok200 result))
                        (fun e => ret_st (Error500 e))
           | _ => lift_st (Raise AttributeError)
           end
  end.

End Adapter.

(** ** Definitions that follow the words of the specification

    They are compared with the code below; nothing in the code is defined
    from them. *)

Module SpecWords.

(** The part of [s] after the first occurrence of ["://"], or [s] itself. *)
Fixpoint after_scheme_go (s whole : str) : str :=
  match Re.lit (py "://") s with
  | Some r => r
  | None =>
      match s with
      | [] => whole
      | _ :: r => after_scheme_go r whole
      end
  end.

Definition after_scheme (s : str) : str := after_scheme_go s s.

Definition host_end (c : N) : bool :=
  (c =? ch "/")%N || (c =? ch "?")%N || (c =? ch "#")%N || (c =? ch ":")%N.

Fixpoint until_host_end (s : str) : str :=
  match s with
  | [] => []
  | c :: r => if host_end c then [] else c :: until_host_end r
  end.

(** "The host portion" of a normalised URL: what stands between the
    scheme separator and the first of [/], [?], [#] and [:]. *)
Definition host (u_norm : str) : str := until_host_end (after_scheme u_norm).


(** "The problem is the semicolon-joined list of the applicable flag
    names, in the order IP, shortener, hyphen pattern; null when none
    applies." *)
Definition flag_names (ip shortener hyphen : bool) : list str :=
  (if ip then [py "IP address used in URL"] else []) ++
  (if shortener then [py "shortened URL"] else []) ++
  (if hyphen then [py "suspicious domain pattern"] else []).

Definition joined_problem (names : list str) : option str :=
  match names with
  | [] => None
  | _ :: _ => Some (PyStr.join (py "; ") names)
  end.

(** "Each field of the refined Verdict falls back independently to the
    corresponding base field": the score is coerced and clamped, or is the
    base score when missing or invalid; the other three fields come from
    the answer when it has them in the right shape, whatever the score. *)
Definition refine_fields `{Python} (py_str : pyval -> str)
    (parsed : gmap string pyval) (base : Verdict) : Verdict :=
  {| risk_level := default (risk_level base) (parsed !! "risk_level");
     score := match parsed !! "score" with
              | Some v => match py_int v with
                          | inr z => Z.max 0 (Z.min 100 z)
                          | inl _ => score base
                          end
              | None => score base
              end;
     reasons := match parsed !! "reasons" with
                | Some (PList l) => l
                | Some v => [PStr (py_str v)]
                | None => reasons base
                end;
     suspicious_links := match parsed !! "suspicious_links" with
                         | Some (PList l) => l
                         | _ => suspicious_links base
                         end |}.

End SpecWords.

(** ** A small stand-in for the interpreter, the libraries and the remote model

    Enough of them to run the definitions on concrete ASCII inputs: an
    interpreter that knows no character above 127 and whose [int] accepts
    no string, a URL finder that keeps the blank-separated words with a dot
    inside them, a domain splitter that returns the host with no suffix,
    both counting their calls in the library state, a URL finder that
    raises, and a [json.loads] that knows a few answers.  They stand for
    nothing in the code: the theorems below hold for every interpreter
    and all libraries, and these only show that their hypotheses can be
    met. *)

Module Demo.

Definition python : Python :=
  {| uni_isspace := fun _ => false;
     uni_isdecimal := fun _ => false;
     uni_lower := fun s => s;
     int_of_str := fun _ => Raise ValueError |}.

Fixpoint words_go (cur s : str) : list str :=
  match s with
  | [] => if truthy_str cur then [cur] else []
  | c :: r =>
      if PyStr.isspace (H := python) c
      then (if truthy_str cur then [cur] else []) ++ words_go [] r
      else words_go (cur ++ [c]) r
  end.

(** A dot with something after it. *)
Fixpoint dot_inside (s : str) : bool :=
  match s with
  | [] => false
  | c :: r =>
      match r with
      | [] => false
      | _ :: _ => (c =? ch ".")%N || dot_inside r
      end
  end.

Definition find_urls (t : str) : St nat (list str) :=
  fun calls => (Return (List.filter dot_inside (words_go [] t)), S calls).

(** The URL finder past its limit. *)
Definition find_urls_raises (t : str) : St nat (list str) :=
  fun calls => (Raise (LibraryError "URLExtractError"), S calls).

Definition tld_extract (u_norm : str) : St nat Tld.ExtractResult :=
  fun calls =>
    (Return {| Tld.subdomain := [];
               Tld.domain := SpecWords.host u_norm;
               Tld.suffix := [] |}, S calls).

Definition getenv (name : str) : option str :=
  if decide (name = py "GEMINI_API_KEY") then Some (py "secret") else None.

Definition no_env (name : str) : option str := None.

Definition json_dumps (v : Verdict) : str := py "{...}".

Definition py_str (v : pyval) : str :=
  match v with
  | PStr s => s
  | PNone => py "None"
  | PBool true => py "True"
  | PBool false => py "False"
  | PInt z => if z <? 0 then py "-" ++ PyStr.of_nat (Z.to_nat (- z)) else PyStr.of_nat (Z.to_nat z)
  | _ => py "<value>"
  end.

Definition quoted (s : string) : str := PyStr.dquote ++ py s ++ PyStr.dquote.

(** [{"risk_level": "Critical", "score": 150, "reasons": "looks bad", "suspicious_links": 7}] *)
Definition answer_ok : str :=
  py "{" ++ quoted "risk_level" ++ py ": " ++ quoted "Critical" ++ py ", "
      ++ quoted "score" ++ py ": 150, "
      ++ quoted "reasons" ++ py ": " ++ quoted "looks bad" ++ py ", "
      ++ quoted "suspicious_links" ++ py ": 7}".

Definition parsed_ok : gmap string pyval :=
  {[ "risk_level" := PStr (py "Critical"); "score" := PInt 150;
     "reasons" := PStr (py "looks bad"); "suspicious_links" := PInt 7 ]}.

(** [{"risk_level": "Dangerous", "score": "high"}] *)
Definition answer_bad_score : str :=
  py "{" ++ quoted "risk_level" ++ py ": " ++ quoted "Dangerous" ++ py ", "
      ++ quoted "score" ++ py ": " ++ quoted "high" ++ py "}".

Definition parsed_bad_score : gmap string pyval :=
  {[ "risk_level" := PStr (py "Dangerous"); "score" := PStr (py "high") ]}.

(** [{"risk_level": "Dangerous", "score": null}] *)
Definition answer_null_score : str :=
  py "{" ++ quoted "risk_level" ++ py ": " ++ quoted "Dangerous" ++ py ", "
      ++ quoted "score" ++ py ": null}".

Definition parsed_null_score : gmap string pyval :=
  {[ "risk_level" := PStr (py "Dangerous"); "score" := PNone ]}.

(** [{"risk_level": "Totally fine"}] *)
Definition answer_level_only : str :=
  py "{" ++ quoted "risk_level" ++ py ": " ++ quoted "Totally fine" ++ py "}".

Definition parsed_level_only : gmap string pyval :=
  {[ "risk_level" := PStr (py "Totally fine") ]}.

Definition json_loads (s : str) : Exc pyval :=
  if decide (s = answer_ok) then Return (PDict parsed_ok)
  else if decide (s = answer_bad_score) then Return (PDict parsed_bad_score)
  else if decide (s = answer_null_score) then Return (PDict parsed_null_score)
  else if decide (s = answer_level_only) then Return (PDict parsed_level_only)
  else Raise JSONDecodeError.

(** A remote model that wraps its answer in a code fence. *)
Definition fenced (answer : str) (prompt : str) : Exc str :=
  Return (py "```json" ++ PyStr.nl ++ answer ++ PyStr.nl ++ py "```" ++ PyStr.nl).

(** A remote model whose call fails. *)
Definition unreachable (prompt : str) : Exc str :=
  Raise (RemoteError "connection refused").

(** A base Verdict, as the engine returns it for a harmless text. *)
Definition base : Verdict :=
  {| risk_level := PStr (py "Safe");
     score := 0;
     reasons := [PStr (py "No strong heuristic flags found")];
     suspicious_links := [] |}.

End Demo.

(** The example of the specification. *)
Definition example_text : str :=
  py "URGENT! Please verify your password immediately at http://192.168.1.5/login".

Definition example_url : str := py "http://192.168.1.5/login".

(** ** Predicates used in the statements *)

(** A string, as an occurrence in another: [s = pre ++ sub ++ post]. *)
Definition occurs (sub s : str) : Prop :=
  exists pre post, s = pre ++ sub ++ post.

(** Whether the [problem] of a link names the given flag. *)
Definition names (flag : str) (problem : option str) : bool :=
  match problem with
  | Some p => PyStr.contains flag p
  | None => false
  end.


(** The three labels, by the thresholds on the score. *)
Definition label_matches (v : Verdict) : Prop :=
  (60 <= score v /\ risk_level v = PStr (py "Dangerous")) \/
  (30 <= score v < 60 /\ risk_level v = PStr (py "Suspicious")) \/
  (score v < 30 /\ risk_level v = PStr (py "Safe")).

(** What the engine returns for a text of white space that is not empty. *)
Definition blank_verdict : Verdict :=
  {| risk_level := PStr (py "Safe");
     score := 0;
     reasons := [PStr (py "No strong heuristic flags found")];
     suspicious_links := [] |}.

(** What the engine returns for the example of the specification. *)
Definition example_verdict : Verdict :=
  {| risk_level := PStr (py "Dangerous");
     score := 83;
     reasons :=
       [PStr (py "Urgency language: urgent, verify, verify your, immediately");
        PStr (py "Requests sensitive info: password, login");
        PStr (py "Contains long ALL-CAPS word(s)");
        PStr (found_links 1)];
     suspicious_links :=
       [link_dict {| url := example_url;
                     domain := py "192.168.1.5";
                     problem := Some (py "IP address used in URL") |}] |}.

(** A dict is the entry of a link: it has the three keys "url", "domain"
    and "problem" and no other, with the fields of the link under them, a
    problem that is missing being [None]. *)
Definition is_link_entry (l : LinkFinding) (d : pyval) : Prop :=
  exists m : gmap string pyval,
    d = PDict m
    /\ dom m = {[ "url"; "domain"; "problem" ]}
    /\ m !! "url" = Some (PStr (url l))
    /\ m !! "domain" = Some (PStr (domain l))
    /\ m !! "problem" = Some (match problem l with
                              | None => PNone
                              | Some p => PStr p
                              end).

(** The answer of the remote model holds a JSON object: an opening brace
    and, after it, a closing one. *)
Definition has_json_object (text_out : str) : bool :=
  negb (PyStr.find (ch "{") text_out =? -1) && negb (PyStr.rfind (ch "}") text_out =? -1)
  && (PyStr.rfind (ch "}") text_out >? PyStr.find (ch "{") text_out).

(** That object, from the first opening brace to the last closing one. *)
Definition json_object (text_out : str) : str :=
  PyStr.slice (PyStr.find (ch "{") text_out) (PyStr.rfind (ch "}") text_out + 1) text_out.

Section Predicates.

Context `{Python}.

(** The text is empty or made of white space only. *)
Fixpoint all_space (s : str) : bool :=
  match s with
  | [] => true
  | c :: r => PyStr.isspace c && all_space r
  end.




(** [s] begins with four runs of digits separated by three dots. *)
Definition quad_prefix (s : str) : bool :=
  bool_decide (is_Some (s1 ← Re.digits1 s; s2 ← Re.lit (py ".") s1;
                        s3 ← Re.digits1 s2; s4 ← Re.lit (py ".") s3;
                        s5 ← Re.digits1 s4; s6 ← Re.lit (py ".") s5;
                        Re.digits1 s6)).

(** The [problem] of a link is what the three flags of its URL and its
    domain make it, and is not the empty string. *)
Definition problem_ok (l : LinkFinding) : Prop :=
  problem l =
    SpecWords.joined_problem
      (SpecWords.flag_names (ip_flag (normalize (url l)))
                            (shortener_flag (normalize (url l)))
                            (hyphen_flag (domain l)))
  /\ problem l <> Some [].

(** What the four checks on the text add to the score. *)
Definition text_weight (t : str) : Z :=
  (if truthy_list (found_in urgent (PyStr.lower t)) then 28 else 0)
  + (if truthy_list (found_in sensitive (PyStr.lower t)) then 30 else 0)
  + (if (2 <=? PyStr.count (ch "!") t)%nat then 6 else 0)
  + (if Re.search_caps6 t then 5 else 0).

(** What the three checks on one URL add to the score. *)
Definition flag_weight (u_norm domain : str) : Z :=
  (if ip_flag u_norm then 20 else 0)
  + (if shortener_flag u_norm then 12 else 0)
  + (if hyphen_flag domain then 6 else 0).

Fixpoint links_weight (lfs : list LinkFinding) : Z :=
  match lfs with
  | [] => 0
  | l :: lfs' => flag_weight (normalize (url l)) (domain l) + links_weight lfs'
  end.

(** None of the four checks on the text fires and no URL is found. *)
Definition no_check_fired (t : str) (urls : list str) : Prop :=
  found_in urgent (PyStr.lower t) = []
  /\ found_in sensitive (PyStr.lower t) = []
  /\ (PyStr.count (ch "!") t < 2)%nat
  /\ Re.search_caps6 t = false
  /\ urls = [].

(** The body of the request carries no text: there is no body, the body
    is falsy, or it is a dict whose "text" is missing, falsy, or a string
    of white space. *)
Definition no_text (body : option pyval) : Prop :=
  match body with
  | None => True
  | Some v =>
      truthy v = false
      \/ exists d, v = PDict d
           /\ match d !! "text" with
              | None => True
              | Some t => truthy t = false
                          \/ exists s, t = PStr s /\ all_space s = true
              end
  end.

End Predicates.

Section AdapterCases.

Context `{Python}.
Variable getenv : str -> option str.
Variable _HAS_GEMINI : bool.
Variable generate_content : str -> Exc str.
Variable json_loads : str -> Exc pyval.
Variable json_dumps : Verdict -> str.

(** The adapter is available: a key is configured and the client library
    is present. *)
Definition available : Prop :=
  truthy_opt (py_or (getenv (py "GEMINI_API_KEY")) (getenv (py "OPENAI_API_KEY"))) = true
  /\ _HAS_GEMINI = true.

(** The remote model answered [out] and [json.loads] made the dict
    [parsed] of the JSON object in it. *)
Definition answered (text : str) (base : Verdict) (parsed : gmap string pyval) : Prop :=
  exists out,
    generate_content (_build_llm_prompt json_dumps text base) = Return out
    /\ has_json_object (PyStr.strip out) = true
    /\ json_loads (json_object (PyStr.strip out)) = Return (PDict parsed).

(** The score of the answer is missing or [int] accepts it. *)
Definition score_coercible (base : Verdict) (parsed : gmap string pyval) : Prop :=
  exists z, py_int (default (PInt (score base)) (parsed !! "score")) = Return z.

(** The ways the adapter is unavailable or fails. *)
Inductive adapter_fails (text : str) (base : Verdict) : Prop :=
  | no_api_key :
      truthy_opt (py_or (getenv (py "GEMINI_API_KEY")) (getenv (py "OPENAI_API_KEY"))) = false ->
      adapter_fails text base
  | no_client_library :
      _HAS_GEMINI = false ->
      adapter_fails text base
  | remote_error e :
      generate_content (_build_llm_prompt json_dumps text base) = Raise e ->
      adapter_fails text base
  | missing_json out :
      generate_content (_build_llm_prompt json_dumps text base) = Return out ->
      has_json_object (PyStr.strip out) = false ->
      adapter_fails text base
  | unparseable_json out e :
      generate_content (_build_llm_prompt json_dumps text base) = Return out ->
      has_json_object (PyStr.strip out) = true ->
      json_loads (json_object (PyStr.strip out)) = Raise e ->
      adapter_fails text base
  | not_an_object out parsed :
      generate_content (_build_llm_prompt json_dumps text base) = Return out ->
      has_json_object (PyStr.strip out) = true ->
      json_loads (json_object (PyStr.strip out)) = Return parsed ->
      (forall d, parsed <> PDict d) ->
      adapter_fails text base
  | invalid_score parsed e :
      answered text base parsed ->
      py_int (default (PInt (score base)) (parsed !! "score")) = Raise e ->
      adapter_fails text base.

End AdapterCases.

Section EngineCases.

Context `{Python} {W : Type}.
Variable find_urls : str -> St W (list str).
Variable tld_extract : str -> St W Tld.ExtractResult.

(** The exception [e] comes from a library: the URL finder raised it on
    the stripped text, or the domain splitter raised it on a normalised
    URL. *)
Definition raised_by_library (text : str) (w : W) (e : exn) : Prop :=
  fst (find_urls (PyStr.strip text) w) = Raise e
  \/ exists u w', fst (tld_extract (normalize u) w') = Raise e.

(** Both libraries answer: the URL finder on the stripped text, the
    domain splitter on whatever it is asked. *)
Definition libraries_answer (text : str) (w : W) : Prop :=
  (exists urls, fst (find_urls (PyStr.strip text) w) = Return urls)
  /\ (forall u w', exists ext, fst (tld_extract u w') = Return ext).

End EngineCases.

(** * Properties *)

(** ** Strings *)

Example strip_ex : PyStr.strip (H := Demo.python) (py "  a b  ") = py "a b".
Proof. reflexivity. Qed.

Example lower_ex :
  PyStr.lower (H := Demo.python) (py "URGENT! Http://X") = py "urgent! http://x".
Proof. reflexivity. Qed.

Example search_caps6_ex :
  Re.search_caps6 (py "URGENT!") = true /\ Re.search_caps6 (py "URGEN Tx") = false.
Proof. split; reflexivity. Qed.

Example search_ip_ex :
  Re.search_ip (H := Demo.python) (py "http://192.168.1.5/login") = true /\
  Re.search_ip (H := Demo.python) (py "see https://10.0.0.1") = true /\
  Re.search_ip (H := Demo.python) (py "http://1.2.3/x") = false /\
  Re.search_ip (H := Demo.python) (py "http://ftp://1.2.3.4/") = false.
Proof. repeat split; reflexivity. Qed.

Example find_ex :
  PyStr.find (ch "{") (py "ab{c}d}") = 2 /\ PyStr.rfind (ch "}") (py "ab{c}d}") = 6 /\
  PyStr.find (ch "{") (py "abc") = -1 /\ PyStr.slice 2 7 (py "ab{c}d}") = py "{c}d}".
Proof. repeat split; reflexivity. Qed.

Lemma py_app (a b : string) : py (a +:+ b) = py a ++ py b.
Proof.
  unfold py. induction a as [|c a IH]; [reflexivity|].
  simpl. f_equal. exact IH.
Qed.




Section StringProps.

Context `{Python}.

Lemma lstrip_all_space (s : str) :
  all_space s = true -> PyStr.lstrip s = [].
Proof.
  induction s as [|c r IH]; simpl; [reflexivity|].
  intros Hs. apply andb_true_iff in Hs as [Hc Hr].
  rewrite Hc. auto.
Qed.

Lemma strip_all_space (s : str) :
  all_space s = true -> PyStr.strip s = [].
Proof.
  intros Hs. unfold PyStr.strip. rewrite (lstrip_all_space s Hs). reflexivity.
Qed.




Lemma dot_not_digit : PyStr.isdigit (ch ".") = false.
Proof. reflexivity. Qed.







Lemma search_ip_cons (c : N) (s : str) :
  Re.search_ip (c :: s) = bool_decide (is_Some (Re.match_ip (c :: s))) || Re.search_ip s.
Proof. reflexivity. Qed.


End StringProps.
(** ** The checks on one URL *)

Section LinkProps.

Context `{Python}.

Lemma link_checks_problem (u_norm domain : str) (sc : Z) :
  fst (link_checks u_norm domain sc) =
  SpecWords.joined_problem
    (SpecWords.flag_names (ip_flag u_norm) (shortener_flag u_norm) (hyphen_flag domain)).
Proof.
  unfold link_checks.
  destruct (ip_flag u_norm), (shortener_flag u_norm), (hyphen_flag domain); reflexivity.
Qed.

Lemma link_checks_score (u_norm domain : str) (sc : Z) :
  snd (link_checks u_norm domain sc) =
  sc + (if ip_flag u_norm then 20 else 0)
     + (if shortener_flag u_norm then 12 else 0)
     + (if hyphen_flag domain then 6 else 0).
Proof.
  unfold link_checks.
  destruct (ip_flag u_norm), (shortener_flag u_norm), (hyphen_flag domain); simpl; lia.
Qed.


Lemma joined_problem_not_empty (ip shortener hyphen : bool) :
  SpecWords.joined_problem (SpecWords.flag_names ip shortener hyphen) <> Some [].
Proof. destruct ip, shortener, hyphen; discriminate. Qed.

Lemma flag_weight_bounds (u_norm domain : str) : 0 <= flag_weight u_norm domain <= 38.
Proof.
  unfold flag_weight.
  destruct (ip_flag u_norm), (shortener_flag u_norm), (hyphen_flag domain); lia.
Qed.

Lemma flag_weight_even (u_norm domain : str) :
  exists k, 0 <= k /\ flag_weight u_norm domain = 2 * k.
Proof.
  unfold flag_weight.
  destruct (ip_flag u_norm), (shortener_flag u_norm), (hyphen_flag domain);
    [exists 19|exists 16|exists 13|exists 10|exists 9|exists 6|exists 3|exists 0]; lia.
Qed.

Lemma links_weight_nonneg (lfs : list LinkFinding) : 0 <= links_weight lfs.
Proof.
  induction lfs as [|l lfs IH]; simpl; [lia|].
  pose proof (flag_weight_bounds (normalize (url l)) (domain l)). lia.
Qed.

Lemma links_weight_even (lfs : list LinkFinding) :
  exists k, 0 <= k /\ links_weight lfs = 2 * k.
Proof.
  induction lfs as [|l lfs (k & Hk & E)]; simpl; [exists 0; lia|].
  destruct (flag_weight_even (normalize (url l)) (domain l)) as (k0 & Hk0 & E0).
  exists (k0 + k). lia.
Qed.

End LinkProps.

(** The dict of a link holds its three fields, and nothing else. *)
Lemma link_dict_entry (l : LinkFinding) : is_link_entry l (link_dict l).
Proof.
  eexists. split; [reflexivity|].
  split; [rewrite !dom_insert_L, dom_singleton_L; set_solver|].
  split; [by simplify_map_eq|]. split; [by simplify_map_eq|].
  destruct (problem l); by simplify_map_eq.
Qed.

Lemma link_dict_inj (l1 l2 : LinkFinding) : link_dict l1 = link_dict l2 -> l1 = l2.
Proof.
  intros Heq.
  destruct (link_dict_entry l1) as (d1 & E1 & _ & U1 & D1 & P1).
  destruct (link_dict_entry l2) as (d2 & E2 & _ & U2 & D2 & P2).
  rewrite E1, E2 in Heq. assert (d1 = d2) as -> by congruence.
  rewrite U1 in U2. rewrite D1 in D2. rewrite P1 in P2.
  destruct l1 as [u1 m1 p1], l2 as [u2 m2 p2]. simpl in *.
  f_equal; [congruence|congruence|].
  destruct p1, p2; simpl in *; congruence.
Qed.

(** ** The loop over the URLs *)

Section EngineProps.

Context `{Python} {W : Type}.
Variable find_urls : str -> St W (list str).
Variable tld_extract : str -> St W Tld.ExtractResult.

(** When the loop returns it has appended one link per URL, in order,
    each with the problem its flags make, and has added their weights to
    the score. *)
Lemma inspect_urls_returns (urls : list str) :
  forall (sc : Z) (links : list pyval) (w : W) (r : Z * list pyval),
  fst (inspect_urls tld_extract urls sc links w) = Return r ->
  exists lfs : list LinkFinding,
    r = (sc + links_weight lfs, links ++ map link_dict lfs)
    /\ map url lfs = urls /\ Forall problem_ok lfs.
Proof.
  induction urls as [|u urls IH]; intros sc links w r Hr.
  - injection Hr as <-. exists []. simpl. rewrite app_nil_r, Z.add_0_r.
    repeat split. constructor.
  - simpl in Hr. unfold bind_st in Hr.
    destruct (tld_extract (normalize u) w) as [[e|ext] w1]; [discriminate Hr|].
    pose proof (link_checks_problem (normalize u) (registrable ext) sc) as Hp.
    pose proof (link_checks_score (normalize u) (registrable ext) sc) as Hs.
    destruct (link_checks (normalize u) (registrable ext) sc) as [p s'].
    simpl in Hp, Hs. subst s'.
    destruct (IH _ _ _ _ Hr) as (lfs & -> & Hu & Hall).
    exists ({| url := u; domain := registrable ext; problem := p |} :: lfs).
    simpl. rewrite <- app_assoc. simpl. unfold flag_weight.
    repeat split; [f_equal; lia|f_equal; exact Hu|].
    constructor; [|exact Hall].
    split; simpl; [exact Hp|]. rewrite Hp. apply joined_problem_not_empty.
Qed.

(** The loop raises only what the domain splitter raised. *)
Lemma inspect_urls_raises (urls : list str) :
  forall (sc : Z) (links : list pyval) (w : W) (e : exn),
  fst (inspect_urls tld_extract urls sc links w) = Raise e ->
  exists u w', fst (tld_extract (normalize u) w') = Raise e.
Proof.
  induction urls as [|u urls IH]; intros sc links w e Hr; [discriminate Hr|].
  simpl in Hr. unfold bind_st in Hr.
  destruct (tld_extract (normalize u) w) as [[e'|ext] w1] eqn:E.
  - injection Hr as ->. exists u, w. rewrite E. reflexivity.
  - destruct (link_checks (normalize u) (registrable ext) sc) as [p s'].
    eapply IH. exact Hr.
Qed.

(** The engine on the empty text. *)
Lemma heuristics_analyze_empty (w : W) :
  heuristics_analyze find_urls tld_extract [] w = (Return empty_verdict, w).
Proof. reflexivity. Qed.

(** The engine, unfolded once, on a text that is not empty: the checks,
    the two calls and the assembly. *)
Lemma heuristics_analyze_run (text : str) (w : W) :
  text <> [] ->
  heuristics_analyze find_urls tld_extract text w =
  let t := PyStr.strip text in
  match find_urls t w with
  | (inl e, w1) => (Raise e, w1)
  | (inr urls, w1) =>
      match inspect_urls tld_extract urls (snd (text_checks t)) [] w1 with
      | (inl e, w2) => (Raise e, w2)
      | (inr r, w2) => (Return (finish (fst (text_checks t)) (fst r) (snd r)), w2)
      end
  end.
Proof.
  intros Hne. unfold heuristics_analyze.
  destruct text as [|c text]; [congruence|].
  change (negb (truthy_str (c :: text))) with false. cbv iota zeta.
  destruct (text_checks (PyStr.strip (c :: text))) as [rs sc].
  unfold bind_st, ret_st.
  destruct (find_urls (PyStr.strip (c :: text)) w) as [[e|urls] w1]; [reflexivity|].
  simpl snd. simpl fst.
  destruct (inspect_urls tld_extract urls sc [] w1) as [[e|[sc' links]] w2]; reflexivity.
Qed.

(** What the engine returns on a text that is not empty. *)
Lemma heuristics_analyze_inv (text : str) (w : W) (v : Verdict) :
  text <> [] ->
  fst (heuristics_analyze find_urls tld_extract text w) = Return v ->
  exists lfs : list LinkFinding,
    fst (find_urls (PyStr.strip text) w) = Return (map url lfs)
    /\ Forall problem_ok lfs
    /\ v = finish (fst (text_checks (PyStr.strip text)))
                  (snd (text_checks (PyStr.strip text)) + links_weight lfs)
                  (map link_dict lfs).
Proof.
  intros Hne Hv. rewrite heuristics_analyze_run in Hv by assumption. cbv zeta in Hv.
  destruct (find_urls (PyStr.strip text) w) as [[e|urls] w1]; [discriminate Hv|].
  destruct (inspect_urls tld_extract urls _ [] w1) as [[e|r] w2] eqn:E; [discriminate Hv|].
  injection Hv as <-.
  destruct (inspect_urls_returns urls (snd (text_checks (PyStr.strip text))) [] w1 r)
    as (lfs & -> & Hu & Hall); [rewrite E; reflexivity|].
  exists lfs. simpl. rewrite Hu. repeat split. exact Hall.
Qed.

(** The engine raises nothing of its own. *)
Lemma heuristics_analyze_raises (text : str) (w : W) (e : exn) :
  fst (heuristics_analyze find_urls tld_extract text w) = Raise e ->
  raised_by_library find_urls tld_extract text w e.
Proof.
  destruct (decide (text = [])) as [->|Hne]; [discriminate|].
  rewrite heuristics_analyze_run by assumption. cbv zeta. unfold raised_by_library.
  destruct (find_urls (PyStr.strip text) w) as [[e'|urls] w1]; [intros [= ->]; left; reflexivity|].
  destruct (inspect_urls tld_extract urls _ [] w1) as [[e'|r] w2] eqn:E; [|discriminate].
  intros [= ->]. right. eapply inspect_urls_raises. rewrite E. reflexivity.
Qed.

Lemma inspect_urls_total (urls : list str) :
  (forall u w', exists ext, fst (tld_extract u w') = Return ext) ->
  forall (sc : Z) (links : list pyval) (w : W),
  exists r, fst (inspect_urls tld_extract urls sc links w) = Return r.
Proof.
  intros Hte. induction urls as [|u urls IH]; intros sc links w; [simpl; eauto|].
  simpl. unfold bind_st. destruct (Hte (normalize u) w) as [ext Hext].
  destruct (tld_extract (normalize u) w) as [[e|ext'] w1]; [discriminate Hext|].
  destruct (link_checks (normalize u) (registrable ext') sc) as [p s']. apply IH.
Qed.

(** The engine returns whenever the libraries answer. *)
Lemma heuristics_analyze_returns (text : str) (w : W) :
  libraries_answer find_urls tld_extract text w ->
  exists v, fst (heuristics_analyze find_urls tld_extract text w) = Return v.
Proof.
  intros [[urls Hu] Hte].
  destruct (decide (text = [])) as [->|Hne]; [simpl; eauto|].
  rewrite heuristics_analyze_run by assumption. cbv zeta.
  destruct (find_urls (PyStr.strip text) w) as [[e|urls'] w1]; [discriminate Hu|].
  destruct (inspect_urls_total urls' Hte (snd (text_checks (PyStr.strip text))) [] w1) as [r Hr].
  destruct (inspect_urls tld_extract urls' _ [] w1) as [[e|r'] w2]; [discriminate Hr|].
  simpl. eauto.
Qed.

End EngineProps.

(** ** The assembly of the Verdict *)

Lemma clamp_bounds (sc : Z) : 0 <= clamp sc <= 100.
Proof. unfold clamp. lia. Qed.

Lemma finish_score (rs : list pyval) (sc : Z) (links : list pyval) :
  score (finish rs sc links) = clamp sc.
Proof. reflexivity. Qed.

Lemma finish_label (rs : list pyval) (sc : Z) (links : list pyval) :
  label_matches (finish rs sc links).
Proof.
  unfold label_matches, finish, label. simpl.
  destruct (Z.leb_spec 60 (clamp sc)); [left; split; [lia|reflexivity]|].
  destruct (Z.leb_spec 30 (clamp sc)); [right; left; split; [lia|reflexivity]|].
  right; right; split; [lia|reflexivity].
Qed.

Lemma finish_reasons (rs : list pyval) (sc : Z) (links : list pyval) :
  reasons (finish rs sc links) <> [].
Proof.
  unfold finish. simpl.
  destruct (truthy_list links).
  - destruct rs; discriminate.
  - destruct rs; discriminate.
Qed.

Lemma finish_links (rs : list pyval) (sc : Z) (links : list pyval) :
  suspicious_links (finish rs sc links) = links.
Proof. reflexivity. Qed.

Lemma finish_level (rs : list pyval) (sc : Z) (links : list pyval) :
  risk_level (finish rs sc links) = PStr (label (clamp sc)).
Proof. reflexivity. Qed.

(** Without a reason from the checks on the text, the reasons are the
    summary of the links or the neutral reason, never the reason of the
    short circuit. *)
Lemma finish_no_text_reason (sc : Z) (links : list pyval) :
  reasons (finish [] sc links) <> [PStr (py "Empty message")].
Proof.
  unfold finish. simpl. destruct links; simpl; intros Heq; discriminate Heq.
Qed.

Lemma finish_reasons_count (rs : list pyval) (sc : Z) (links : list pyval) :
  (1 <= length (reasons (finish rs sc links)) <= length rs + 1)%nat.
Proof.
  unfold finish. simpl.
  destruct links, rs; simpl; rewrite ?length_app; simpl; lia.
Qed.

Lemma finish_summary (rs : list pyval) (sc : Z) (links : list pyval) :
  links <> [] ->
  last (reasons (finish rs sc links)) = Some (PStr (found_links (length links))).
Proof.
  intros Hne. unfold finish. simpl.
  destruct links as [|l links]; [congruence|]. simpl truthy_list. cbv iota.
  destruct (rs ++ _) eqn:E.
  - destruct rs; discriminate E.
  - simpl negb. cbv iota. rewrite <- E. apply last_snoc.
Qed.
(** ** The checks on the text *)

Section TextProps.

Context `{Python}.

Lemma text_checks_weight (t : str) : snd (text_checks t) = text_weight t.
Proof.
  unfold text_checks, text_weight.
  destruct (truthy_list (found_in urgent (PyStr.lower t))),
           (truthy_list (found_in sensitive (PyStr.lower t))),
           (2 <=? PyStr.count (ch "!") t)%nat, (Re.search_caps6 t); reflexivity.
Qed.

Lemma text_checks_count (t : str) :
  (length (fst (text_checks t)) <= 4)%nat
  /\ (fst (text_checks t) = [] <-> text_weight t = 0).
Proof.
  unfold text_checks, text_weight.
  destruct (truthy_list (found_in urgent (PyStr.lower t))),
           (truthy_list (found_in sensitive (PyStr.lower t))),
           (2 <=? PyStr.count (ch "!") t)%nat, (Re.search_caps6 t);
    simpl; (split; [lia|split; intros Heq; (discriminate Heq || reflexivity)]).
Qed.

Lemma text_weight_bounds (t : str) : 0 <= text_weight t <= 69.
Proof.
  unfold text_weight.
  destruct (truthy_list (found_in urgent (PyStr.lower t))),
           (truthy_list (found_in sensitive (PyStr.lower t))),
           (2 <=? PyStr.count (ch "!") t)%nat, (Re.search_caps6 t); lia.
Qed.

(** No check on the text fired exactly when it left no reason. *)
Lemma text_checks_none (t : str) :
  fst (text_checks t) = []
  <-> found_in urgent (PyStr.lower t) = []
      /\ found_in sensitive (PyStr.lower t) = []
      /\ (PyStr.count (ch "!") t < 2)%nat
      /\ Re.search_caps6 t = false.
Proof.
  unfold text_checks.
  generalize (found_in urgent (PyStr.lower t)) (found_in sensitive (PyStr.lower t)).
  intros fu fs.
  destruct (Nat.leb_spec 2 (PyStr.count (ch "!") t)) as [Hc|Hc];
    destruct fu as [|x fu], fs as [|y fs], (Re.search_caps6 t); simpl;
    (split;
     [intros Heq; first [discriminate Heq | repeat split; first [reflexivity | lia]]
     |intros (Ha & Hb & Hd & He); first [reflexivity | discriminate | lia]]).
Qed.

(** The neutral reason is none of the reasons of the checks. *)
Lemma text_checks_not_neutral (t : str) :
  ~ In (PStr (py "No strong heuristic flags found")) (fst (text_checks t)).
Proof.
  unfold text_checks.
  generalize (PyStr.join (py ", ") (take 5 (found_in urgent (PyStr.lower t))))
             (PyStr.join (py ", ") (take 5 (found_in sensitive (PyStr.lower t))))
             (PyStr.of_nat (PyStr.count (ch "!") t)).
  intros ju js n.
  destruct (truthy_list (found_in urgent (PyStr.lower t))),
           (truthy_list (found_in sensitive (PyStr.lower t))),
           (2 <=? PyStr.count (ch "!") t)%nat, (Re.search_caps6 t);
    simpl; intuition (try (match goal with
                           | Heq : PStr _ = PStr _ |- _ => vm_compute in Heq; discriminate Heq
                           end)).
Qed.

End TextProps.

Lemma found_links_not_neutral (n : nat) :
  PStr (found_links n) <> PStr (py "No strong heuristic flags found").
Proof. intros Heq. vm_compute in Heq. discriminate Heq. Qed.

(** The reasons of the Verdict, case by case. *)
Lemma finish_reasons_cases (rs : list pyval) (sc : Z) (links : list pyval) :
  reasons (finish rs sc links) =
  match links, rs with
  | [], [] => [PStr (py "No strong heuristic flags found")]
  | [], _ :: _ => rs
  | _ :: _, _ => rs ++ [PStr (found_links (length links))]
  end.
Proof.
  unfold finish. simpl. destruct links, rs; reflexivity.
Qed.

Lemma link_entries (lfs : list LinkFinding) :
  Forall2 is_link_entry lfs (map link_dict lfs).
Proof.
  induction lfs as [|l lfs IH]; simpl; constructor; [apply link_dict_entry|exact IH].
Qed.

(** ** The engine *)

Section EngineClaims.

Context `{Python} {W : Type}.
Variable find_urls : str -> St W (list str).
Variable tld_extract : str -> St W Tld.ExtractResult.

(** C1, as the code has it.  On the empty text the engine returns the
    Verdict {Safe, 0, ["Empty message"], []} at once: no check runs and no
    library is called, the library state comes back untouched.  A text of
    white space that is not empty passes the guard; the checks run on the
    stripped, empty, text and, the URL finder finding nothing in it, the
    Verdict is {Safe, 0, ["No strong heuristic flags found"], []}. *)
Theorem C1_empty_short_circuit_blank_runs (w : W) :
  heuristics_analyze find_urls tld_extract [] w = (Return empty_verdict, w)
  /\ (forall text : str,
        text <> [] -> all_space text = true ->
        fst (find_urls [] w) = Return [] ->
        fst (heuristics_analyze find_urls tld_extract text w) = Return blank_verdict).
Proof.
  split; [reflexivity|].
  intros text Hne Hsp Hno.
  rewrite heuristics_analyze_run by assumption.
  rewrite (strip_all_space text Hsp). cbv zeta.
  destruct (find_urls [] w) as [[e|urls] w1]; [discriminate Hno|].
  injection Hno as ->. reflexivity.
Qed.

(** C2.  For every text, the engine returns a Verdict whose score lies in
    [0, 100] and whose risk level is the one the thresholds give for that
    score, Dangerous from 60, Suspicious from 30 to 59, Safe below 30;
    unless a library raised, in which case the engine raises the same. *)
Theorem C2_score_bounds_and_label (text : str) (w : W) :
  match fst (heuristics_analyze find_urls tld_extract text w) with
  | inr v => 0 <= score v <= 100 /\ label_matches v
  | inl e => raised_by_library find_urls tld_extract text w e
  end.
Proof.
  destruct (fst (heuristics_analyze find_urls tld_extract text w)) as [e|v] eqn:E;
    [apply heuristics_analyze_raises; exact E|].
  destruct (decide (text = [])) as [->|Hne].
  - injection E as <-. split; [simpl; lia|]. right; right. split; [simpl; lia|reflexivity].
  - destruct (heuristics_analyze_inv find_urls tld_extract text w v Hne E) as (lfs & _ & _ & ->).
    split; [rewrite finish_score; apply clamp_bounds|apply finish_label].
Qed.

(** C6.  For every text, the reasons of the Verdict the engine returns
    are not empty.  On a text that is not empty, when none of the four
    checks on the text fired and no URL was found, the reasons are the
    single neutral entry "No strong heuristic flags found"; when a check
    fired or a URL was found, that entry is not among them.  The engine
    fails to return only when a library raised. *)
Theorem C6_reasons_not_empty (text : str) (w : W) :
  match fst (heuristics_analyze find_urls tld_extract text w) with
  | inr v =>
      reasons v <> []
      /\ (text = [] -> reasons v = [PStr (py "Empty message")])
      /\ (text <> [] ->
          exists urls,
            fst (find_urls (PyStr.strip text) w) = Return urls
            /\ (no_check_fired (PyStr.strip text) urls ->
                reasons v = [PStr (py "No strong heuristic flags found")])
            /\ (~ no_check_fired (PyStr.strip text) urls ->
                ~ In (PStr (py "No strong heuristic flags found")) (reasons v)))
  | inl e => raised_by_library find_urls tld_extract text w e
  end.
Proof.
  destruct (fst (heuristics_analyze find_urls tld_extract text w)) as [e|v] eqn:E;
    [apply heuristics_analyze_raises; exact E|].
  destruct (decide (text = [])) as [->|Hne].
  - injection E as <-. split; [discriminate|]. split; [reflexivity|congruence].
  - destruct (heuristics_analyze_inv find_urls tld_extract text w v Hne E) as (lfs & Hu & _ & ->).
    split; [apply finish_reasons|]. split; [congruence|]. intros _.
    exists (map url lfs). split; [exact Hu|].
    rewrite finish_reasons_cases.
    pose proof (text_checks_none (PyStr.strip text)) as Hnone.
    pose proof (text_checks_not_neutral (PyStr.strip text)) as Hnot.
    split.
    + intros (Ha & Hb & Hc & Hd & He).
      destruct lfs; [|discriminate He]. simpl.
      destruct Hnone as [_ Hnone]. rewrite Hnone by auto. reflexivity.
    + intros Hfired. destruct lfs as [|l lfs]; simpl.
      * destruct (fst (text_checks (PyStr.strip text))) as [|r rs] eqn:Ers; [|exact Hnot].
        exfalso. apply Hfired. destruct Hnone as [Hnone _].
        destruct (Hnone eq_refl) as (Ha & Hb & Hc & Hd). repeat split; assumption.
      * rewrite in_app_iff. intros [Hin|[Hin|[]]]; [exact (Hnot Hin)|].
        revert Hin. apply found_links_not_neutral.
Qed.

(** When no check fired, the one reason is the neutral one. *)
Lemma neutral_reason (text : str) (w : W) (v : Verdict) :
  text <> [] ->
  fst (heuristics_analyze find_urls tld_extract text w) = Return v ->
  fst (text_checks (PyStr.strip text)) = [] ->
  fst (find_urls (PyStr.strip text) w) = Return [] ->
  reasons v = [PStr (py "No strong heuristic flags found")].
Proof.
  intros Hne E Hr Hu.
  destruct (heuristics_analyze_inv find_urls tld_extract text w v Hne E) as (lfs & Hu' & _ & ->).
  rewrite Hu in Hu'. injection Hu' as Hl. destruct lfs; [|discriminate Hl].
  rewrite finish_reasons_cases, Hr. reflexivity.
Qed.

(** C8.  The links of the Verdict are one dict per URL found, in the order
    found, each with the keys "url", "domain" and "problem"; the problem of
    each is null when none of the three flags applies and otherwise the
    names of the flags that apply, joined by a semicolon in the order IP,
    shortener, hyphen pattern; it is never the empty string. *)
Theorem C8_problem_field (text : str) (w : W) :
  match fst (heuristics_analyze find_urls tld_extract text w) with
  | inr v =>
      exists lfs : list LinkFinding,
        Forall2 is_link_entry lfs (suspicious_links v)
        /\ Forall problem_ok lfs
        /\ (text = [] -> lfs = [])
        /\ (text <> [] -> fst (find_urls (PyStr.strip text) w) = Return (map url lfs))
  | inl e => raised_by_library find_urls tld_extract text w e
  end.
Proof.
  destruct (fst (heuristics_analyze find_urls tld_extract text w)) as [e|v] eqn:E;
    [apply heuristics_analyze_raises; exact E|].
  destruct (decide (text = [])) as [->|Hne].
  - injection E as <-. exists []. repeat split; try constructor. congruence.
  - destruct (heuristics_analyze_inv find_urls tld_extract text w v Hne E) as (lfs & Hu & Hall & ->).
    exists lfs. rewrite finish_links.
    split; [apply link_entries|]. split; [exact Hall|]. split; [congruence|auto].
Qed.

End EngineClaims.

(** ** The example of the specification *)

Lemma example_text_checks `{Python} :
  text_checks (PyStr.strip example_text) =
  ([PStr (py "Urgency language: urgent, verify, verify your, immediately");
    PStr (py "Requests sensitive info: password, login");
    PStr (py "Contains long ALL-CAPS word(s)")], 63).
Proof. vm_compute. reflexivity. Qed.

(** C5, as the code has it.  The URL finder returning the one URL of the
    text and the domain splitter the IP address with no suffix, the
    Verdict of the example has the score 83 = 28 (urgency) + 30 (sensitive
    information) + 5 (the six capitals of URGENT) + 20 (IP address in the
    URL), no bonus for the single exclamation mark, the level Dangerous,
    and one link whose problem is "IP address used in URL". *)
Theorem C5_example_verdict `{Python} {W : Type}
    (find_urls : str -> St W (list str))
    (tld_extract : str -> St W Tld.ExtractResult) (w : W) (ext : Tld.ExtractResult) :
  fst (find_urls example_text w) = Return [example_url] ->
  fst (tld_extract example_url (snd (find_urls example_text w))) = Return ext ->
  Tld.domain ext = py "192.168.1.5" ->
  Tld.suffix ext = [] ->
  fst (heuristics_analyze find_urls tld_extract example_text w) = Return example_verdict.
Proof.
  intros Hu Hext Hd Hs.
  rewrite heuristics_analyze_run by discriminate. cbv zeta.
  rewrite example_text_checks.
  assert (PyStr.strip example_text = example_text) as -> by (vm_compute; reflexivity).
  destruct (find_urls example_text w) as [[e|urls] w1]; [discriminate Hu|].
  simpl in Hu, Hext. injection Hu as ->.
  simpl snd. simpl inspect_urls. unfold bind_st.
  assert (normalize example_url = example_url) as -> by (vm_compute; reflexivity).
  destruct (tld_extract example_url w1) as [[e|ext'] w2]; [discriminate Hext|].
  simpl in Hext. injection Hext as ->.
  unfold registrable. rewrite Hs, Hd.
  vm_compute. reflexivity.
Qed.

(** The claim C5 fails: whatever the interpreter and the libraries
    answer, the score of the example is not 78.  The checks on the text
    give 63 and every URL adds an even amount. *)
Lemma C5_score_78_refuted :
  ~ (exists (P : Python) (W : Type) (find_urls : str -> St W (list str))
            (tld_extract : str -> St W Tld.ExtractResult) (w : W) (v : Verdict),
       fst (heuristics_analyze find_urls tld_extract example_text w) = Return v
       /\ score v = 78).
Proof.
  intros (P & W & fu & te & w & v & E & Hs).
  destruct (heuristics_analyze_inv fu te example_text w v) as (lfs & _ & _ & ->);
    [discriminate|exact E|].
  rewrite finish_score, example_text_checks in Hs. simpl snd in Hs.
  destruct (links_weight_even lfs) as (k & Hk & Ek). rewrite Ek in Hs.
  unfold clamp in Hs. lia.
Qed.

(** The claim C1 fails on a blank: whatever the interpreter and the
    libraries answer, the Verdict of the one-blank text is not the one of
    the short circuit. *)
Lemma C1_blank_refuted :
  ~ (exists (P : Python) (W : Type) (find_urls : str -> St W (list str))
            (tld_extract : str -> St W Tld.ExtractResult) (w : W),
       fst (heuristics_analyze find_urls tld_extract (py " ") w) = Return empty_verdict).
Proof.
  intros (P & W & fu & te & w & E).
  destruct (heuristics_analyze_inv fu te (py " ") w empty_verdict) as (lfs & _ & _ & Hv);
    [discriminate|exact E|].
  apply (f_equal reasons) in Hv.
  assert (text_checks (PyStr.strip (py " ")) = ([], 0)) as Ht by (vm_compute; reflexivity).
  rewrite Ht in Hv. simpl fst in Hv.
  symmetry in Hv. revert Hv. apply finish_no_text_reason.
Qed.
(** ** The IP flag *)

Lemma startswith_inv (p s : str) :
  PyStr.startswith p s = true -> exists r, s = p ++ r.
Proof.
  revert s. induction p as [|a p IH]; intros s; simpl.
  - exists s. reflexivity.
  - destruct s as [|b s]; [discriminate|].
    destruct (N.eqb_spec a b) as [->|]; [|discriminate].
    intros Hs. destruct (IH s Hs) as [r ->]. exists r. reflexivity.
Qed.


Section IpFlag.

Context `{Python}.




End IpFlag.



(** ** The refinement adapter *)

Section AdapterProps.

Context `{Python}.
Variable getenv : str -> option str.
Variable _HAS_GEMINI : bool.
Variable generate_content : str -> Exc str.
Variable json_loads : str -> Exc pyval.
Variable json_dumps : Verdict -> str.
Variable py_str : pyval -> str.

(** Whatever happens, the adapter returns: no exception reaches the caller. *)
Lemma call_llm_to_refine_returns (text : str) (base : Verdict) :
  exists v, call_llm_to_refine getenv _HAS_GEMINI generate_content json_loads json_dumps py_str text base = Return v.
Proof.
  unfold call_llm_to_refine.
  destruct (negb _ || negb _); [eauto|].
  destruct (refine_body _ _ _ _ _) as [e|v]; simpl; eauto.
Qed.

Lemma refine_unavailable (text : str) (base : Verdict) :
  truthy_opt (py_or (getenv (py "GEMINI_API_KEY")) (getenv (py "OPENAI_API_KEY"))) = false
  \/ _HAS_GEMINI = false ->
  call_llm_to_refine getenv _HAS_GEMINI generate_content json_loads json_dumps py_str text base = Return base.
Proof.
  unfold call_llm_to_refine. intros [-> | ->]; [reflexivity|].
  rewrite orb_true_r. reflexivity.
Qed.

Lemma refine_available (text : str) (base : Verdict) :
  available getenv _HAS_GEMINI ->
  call_llm_to_refine getenv _HAS_GEMINI generate_content json_loads json_dumps py_str text base =
  try_except (refine_body generate_content json_loads py_str (_build_llm_prompt json_dumps text base) base)
             (fun _ => Return base).
Proof.
  intros [Hk Hl]. unfold call_llm_to_refine. rewrite Hk, Hl. reflexivity.
Qed.

(** The body of the [try] block once the answer holds a JSON object that
    parses to a dict: only the coercion of the score can still raise. *)
Lemma body_answered (text : str) (base : Verdict) (parsed : gmap string pyval) :
  answered generate_content json_loads json_dumps text base parsed ->
  refine_body generate_content json_loads py_str (_build_llm_prompt json_dumps text base) base =
  do parsed_score <- py_int (default (PInt (score base)) (parsed !! "score"));
  Return (sanitize py_str base
            (default (risk_level base) (parsed !! "risk_level"))
            parsed_score
            (default (PList (reasons base)) (parsed !! "reasons"))
            (default (PList (suspicious_links base)) (parsed !! "suspicious_links"))).
Proof.
  intros (out & Hg & Hj & Hl). unfold refine_body. rewrite Hg. simpl bind_exc.
  unfold has_json_object in Hj. rewrite Hj.
  unfold json_object in Hl. rewrite Hl. reflexivity.
Qed.

(** C3.  Whenever the adapter is unavailable (no key, no client library)
    or fails (the remote call raises, the answer holds no JSON object, the
    object does not parse, it is not a dict, the score cannot be coerced),
    it returns the base Verdict, unchanged, and raises nothing. *)
Theorem C3_fallback_to_base (text : str) (base : Verdict) :
  adapter_fails getenv _HAS_GEMINI generate_content json_loads json_dumps text base -> call_llm_to_refine getenv _HAS_GEMINI generate_content json_loads json_dumps py_str text base = Return base.
Proof.
  intros F.
  destruct (decide (available getenv _HAS_GEMINI)) as [Ha|Hn].
  2:{ apply refine_unavailable. unfold available in Hn.
      destruct (truthy_opt _); [|auto]. destruct _HAS_GEMINI; [|auto].
      exfalso. auto. }
  destruct F as [Hk|Hl|e Hg|out Hg Hj|out e Hg Hj He|out parsed Hg Hj Hp Hd|parsed e Ha' Hs].
  - apply refine_unavailable. auto.
  - apply refine_unavailable. auto.
  - rewrite refine_available by assumption. unfold refine_body. rewrite Hg. reflexivity.
  - rewrite refine_available by assumption. unfold refine_body. rewrite Hg. simpl bind_exc.
    unfold has_json_object in Hj. rewrite Hj. reflexivity.
  - rewrite refine_available by assumption. unfold refine_body. rewrite Hg. simpl bind_exc.
    unfold has_json_object in Hj. rewrite Hj.
    unfold json_object in He. rewrite He. reflexivity.
  - rewrite refine_available by assumption. unfold refine_body. rewrite Hg. simpl bind_exc.
    unfold has_json_object in Hj. rewrite Hj.
    unfold json_object in Hp. rewrite Hp. simpl bind_exc.
    destruct parsed; try reflexivity. exfalso. eapply Hd. reflexivity.
  - rewrite refine_available, (body_answered text base parsed) by assumption.
    rewrite Hs. reflexivity.
Qed.

(** There is no other way to fail: an adapter that does not fail is
    available and got an answer whose score [int] accepts. *)
Lemma adapter_fails_or_answers (text : str) (base : Verdict) :
  adapter_fails getenv _HAS_GEMINI generate_content json_loads json_dumps text base
  \/ (available getenv _HAS_GEMINI
      /\ exists parsed,
           answered generate_content json_loads json_dumps text base parsed
           /\ score_coercible base parsed).
Proof.
  destruct (truthy_opt (py_or (getenv (py "GEMINI_API_KEY")) (getenv (py "OPENAI_API_KEY")))) eqn:Hk;
    [|left; apply no_api_key; assumption].
  destruct _HAS_GEMINI eqn:Hl; [|left; apply no_client_library; auto].
  destruct (generate_content (_build_llm_prompt json_dumps text base)) as [e|out] eqn:Hg;
    [left; eapply remote_error; eassumption|].
  destruct (has_json_object (PyStr.strip out)) eqn:Hj;
    [|left; eapply missing_json; eassumption].
  destruct (json_loads (json_object (PyStr.strip out))) as [e|parsed] eqn:Hp;
    [left; eapply unparseable_json; eassumption|].
  assert ((exists d, parsed = PDict d) \/ (forall d, parsed <> PDict d)) as [[d ->]|Hd]
    by (destruct parsed; eauto; right; discriminate).
  2:{ left. eapply not_an_object; eassumption. }
  assert (answered generate_content json_loads json_dumps text base d) as Ha
    by (exists out; auto).
  destruct (py_int (default (PInt (score base)) (d !! "score"))) as [e|z] eqn:Hz.
  - left. eapply invalid_score; eassumption.
  - right. split; [split; auto|]. exists d. split; [assumption|]. exists z. assumption.
Qed.

Lemma sanitize_fields (base : Verdict) (parsed : gmap string pyval) (z : Z) :
  0 <= score base <= 100 ->
  py_int (default (PInt (score base)) (parsed !! "score")) = Return z ->
  sanitize py_str base
    (default (risk_level base) (parsed !! "risk_level")) z
    (default (PList (reasons base)) (parsed !! "reasons"))
    (default (PList (suspicious_links base)) (parsed !! "suspicious_links"))
  = SpecWords.refine_fields py_str parsed base.
Proof.
  intros Hb Hz. unfold sanitize, SpecWords.refine_fields. f_equal.
  - destruct (parsed !! "score") as [v|]; simpl in Hz.
    + rewrite Hz. reflexivity.
    + injection Hz as <-. lia.
  - destruct (parsed !! "reasons") as [[]|]; reflexivity.
  - destruct (parsed !! "suspicious_links") as [[]|]; reflexivity.
Qed.

(** C4, as the code has it.  The adapter available and its answer a JSON
    object: when the score of the answer is missing or can be coerced by
    [int], every field is taken from the answer or falls back to the base
    on its own (the score coerced and clamped, the risk level as it is,
    a lone reason made a list by [str], links that are not a list
    replaced by those of the base); when the score cannot be coerced, the
    whole base Verdict is returned, whatever the other fields of the
    answer.  In both cases nothing is raised. *)
Theorem C4_structured_response (text : str) (base : Verdict) (parsed : gmap string pyval) :
  available getenv _HAS_GEMINI -> answered generate_content json_loads json_dumps text base parsed -> 0 <= score base <= 100 ->
  call_llm_to_refine getenv _HAS_GEMINI generate_content json_loads json_dumps py_str text base =
  match py_int (default (PInt (score base)) (parsed !! "score")) with
  | inr _ => Return (SpecWords.refine_fields py_str parsed base)
  | inl _ => Return base
  end.
Proof.
  intros Ha Hp Hb.
  rewrite refine_available, (body_answered text base parsed) by assumption.
  destruct (py_int _) as [e|z] eqn:Hz; [reflexivity|].
  simpl. rewrite (sanitize_fields base parsed z Hb Hz). reflexivity.
Qed.

(** The risk level of the answer goes to the refined Verdict as it is,
    provided the score of the answer does not make the coercion fail. *)
Lemma refine_risk_level (text : str) (base : Verdict) (parsed : gmap string pyval)
    (v : pyval) (z : Z) :
  available getenv _HAS_GEMINI -> answered generate_content json_loads json_dumps text base parsed ->
  parsed !! "risk_level" = Some v ->
  py_int (default (PInt (score base)) (parsed !! "score")) = Return z ->
  exists final, call_llm_to_refine getenv _HAS_GEMINI generate_content json_loads json_dumps py_str text base = Return final /\ risk_level final = v.
Proof.
  intros Ha Hp Hv Hz.
  rewrite refine_available, (body_answered text base parsed) by assumption.
  rewrite Hz, Hv. simpl. eexists. split; reflexivity.
Qed.

(** The adapter returns the base Verdict or a sanitized one. *)
Lemma refine_cases (text : str) (base : Verdict) :
  call_llm_to_refine getenv _HAS_GEMINI generate_content json_loads json_dumps py_str
                     text base = Return base
  \/ exists lvl z rs ls,
       call_llm_to_refine getenv _HAS_GEMINI generate_content json_loads json_dumps py_str
                          text base = Return (sanitize py_str base lvl z rs ls).
Proof.
  unfold call_llm_to_refine.
  destruct (negb _ || negb _); [left; reflexivity|].
  unfold refine_body.
  destruct (generate_content _) as [e|out]; [left; reflexivity|]. simpl bind_exc.
  destruct (negb _ && negb _ && _); [|left; reflexivity].
  destruct (json_loads _) as [e|parsed]; [left; reflexivity|]. simpl bind_exc.
  destruct parsed; try (left; reflexivity). simpl py_get. simpl bind_exc.
  destruct (py_int _) as [e|z]; [left; reflexivity|]. right. simpl. eauto.
Qed.

Context {W : Type}.
Variable find_urls : str -> St W (list str).
Variable tld_extract : str -> St W Tld.ExtractResult.

(** [analyze_text] is the engine, then the adapter on what it returned;
    what the engine raises goes through. *)
Lemma analyze_text_unfold (text : str) (w : W) :
  analyze_text getenv _HAS_GEMINI generate_content json_loads json_dumps py_str
               find_urls tld_extract text w
  = match heuristics_analyze find_urls tld_extract text w with
    | (inl e, w') => (Raise e, w')
    | (inr heur, w') =>
        (call_llm_to_refine getenv _HAS_GEMINI generate_content json_loads json_dumps
                            py_str text heur, w')
    end.
Proof.
  unfold analyze_text, bind_st, lift_st.
  destruct (heuristics_analyze find_urls tld_extract text w) as [[e|heur] w']; reflexivity.
Qed.

(** C10, as the code has it.  The adapter available, its answer a JSON
    object with a "risk_level" key, and the score of the answer missing
    or coercible by [int]: the value under that key, whatever it is, is
    the risk level of the refined Verdict, and so of the final Verdict of
    [analyze_text].  It is neither checked against the three labels nor
    against the score. *)
Theorem C10_risk_level_verbatim (text : str) (base : Verdict) (w : W)
    (parsed : gmap string pyval) (v : pyval) :
  available getenv _HAS_GEMINI -> parsed !! "risk_level" = Some v ->
  (answered generate_content json_loads json_dumps text base parsed ->
   score_coercible base parsed ->
   exists final,
     call_llm_to_refine getenv _HAS_GEMINI generate_content json_loads json_dumps py_str
                        text base = Return final
     /\ risk_level final = v)
  /\
  (forall heur,
   fst (heuristics_analyze find_urls tld_extract text w) = Return heur ->
   answered generate_content json_loads json_dumps text heur parsed ->
   score_coercible heur parsed ->
   exists final,
     fst (analyze_text getenv _HAS_GEMINI generate_content json_loads json_dumps py_str
                       find_urls tld_extract text w) = Return final
     /\ risk_level final = v).
Proof.
  intros Ha Hv. split.
  - intros Hp [z Hz]. eapply refine_risk_level; eauto.
  - intros heur Hh Hp [z Hz]. rewrite analyze_text_unfold.
    destruct (heuristics_analyze find_urls tld_extract text w) as [[e|heur'] w']; [discriminate Hh|].
    simpl in Hh. injection Hh as ->. simpl fst. eapply refine_risk_level; eauto.
Qed.

End AdapterProps.
(** ** The request guard *)

(** The request guard rejects a text that is empty or blank before the
    engine is called: through the route, the engine never sees one. *)
Lemma analyze_rejects_blank `{Python} {W : Type}
    (getenv : str -> option str) (_HAS_GEMINI : bool)
    (generate_content : str -> Exc str) (json_loads : str -> Exc pyval)
    (json_dumps : Verdict -> str) (py_str : pyval -> str)
    (find_urls : str -> St W (list str))
    (tld_extract : str -> St W Tld.ExtractResult) (s : str) (w : W) :
  all_space s = true ->
  analyze getenv _HAS_GEMINI generate_content json_loads json_dumps py_str
          find_urls tld_extract (Some (PDict {[ "text" := PStr s ]})) w
  = (Return Error400, w).
Proof.
  intros Hs. unfold analyze.
  assert (truthy (PDict {[ "text" := PStr s ]}) = true) as ->.
  { simpl. rewrite bool_decide_eq_false_2; [reflexivity|]. apply map_non_empty_singleton. }
  unfold py_get. rewrite lookup_singleton_eq.
  destruct s as [|c s]; [reflexivity|].
  unfold Return, default, id. cbv beta iota.
  change (negb (truthy (PStr (c :: s)))) with false. cbv iota.
  rewrite (strip_all_space _ Hs). reflexivity.
Qed.

(** ** The claims on concrete inputs *)

Lemma C1_witness :
  heuristics_analyze (H := Demo.python) Demo.find_urls Demo.tld_extract [] 0%nat
    = (Return empty_verdict, 0%nat)
  /\ fst (heuristics_analyze (H := Demo.python) Demo.find_urls Demo.tld_extract (py "  ") 0%nat)
     = Return blank_verdict.
Proof.
  destruct (C1_empty_short_circuit_blank_runs (H := Demo.python)
              Demo.find_urls Demo.tld_extract 0%nat) as [H1 H2].
  split; [exact H1|].
  apply H2; [discriminate|reflexivity|reflexivity].
Defined.

Lemma C3_witness :
  call_llm_to_refine (H := Demo.python) Demo.getenv true Demo.unreachable Demo.json_loads
                     Demo.json_dumps Demo.py_str (py "hello") Demo.base
  = Return Demo.base.
Proof.
  apply (C3_fallback_to_base (H := Demo.python)).
  apply remote_error with (e := RemoteError "connection refused").
  reflexivity.
Defined.

Lemma C4_witness :
  call_llm_to_refine (H := Demo.python) Demo.getenv true (Demo.fenced Demo.answer_ok)
                     Demo.json_loads Demo.json_dumps Demo.py_str (py "hello") Demo.base
  = Return {| risk_level := PStr (py "Critical");
              score := 100;
              reasons := [PStr (py "looks bad")];
              suspicious_links := [] |}.
Proof.
  etransitivity.
  - apply (C4_structured_response (H := Demo.python) Demo.getenv true
             (Demo.fenced Demo.answer_ok) Demo.json_loads Demo.json_dumps Demo.py_str
             (py "hello") Demo.base Demo.parsed_ok).
    + split; reflexivity.
    + eexists. repeat split; vm_compute; reflexivity.
    + simpl; lia.
  - vm_compute. reflexivity.
Defined.

(** What the adapter does with the answer
    [{"risk_level": "Dangerous", "score": "high"}], whatever the
    interpreter: it is available, the answer parses, and the one thing
    left to the interpreter is [int("high")]. *)
Lemma bad_score_answered `{Python} :
  available Demo.getenv true
  /\ answered (Demo.fenced Demo.answer_bad_score) Demo.json_loads Demo.json_dumps
              (py "hello") Demo.base Demo.parsed_bad_score
  /\ default (PInt (score Demo.base)) (Demo.parsed_bad_score !! "score") = PStr (py "high")
  /\ risk_level (SpecWords.refine_fields Demo.py_str Demo.parsed_bad_score Demo.base)
     = PStr (py "Dangerous").
Proof.
  split; [split; reflexivity|].
  split; [eexists; repeat split; vm_compute; reflexivity|].
  split; reflexivity.
Qed.

(** The claim C4 fails: the answer [{"risk_level": "Dangerous", "score":
    "high"}] has a risk level, and a score that [int] refuses; whatever
    else the interpreter does, the adapter does not return the Verdict of
    a fallback field by field, which would keep Dangerous: it returns the
    base Verdict, risk level Safe. *)
Lemma C4_invalid_score_refuted :
  ~ (exists P : Python,
       (exists e, int_of_str (py "high") = Raise e)
       /\ call_llm_to_refine Demo.getenv true (Demo.fenced Demo.answer_bad_score)
                             Demo.json_loads Demo.json_dumps Demo.py_str
                             (py "hello") Demo.base
          = Return (SpecWords.refine_fields Demo.py_str Demo.parsed_bad_score Demo.base)).
Proof.
  intros (P & [e He] & Hc).
  destruct (bad_score_answered (H := P)) as (Ha & Hp & Hs & Hl).
  rewrite refine_available in Hc by exact Ha.
  rewrite (body_answered _ _ _ Demo.py_str _ _ _ Hp) in Hc.
  rewrite Hs in Hc. simpl py_int in Hc. rewrite He in Hc. simpl in Hc.
  apply (f_equal (fun r => match r with inr v => risk_level v | inl _ => PNone end)) in Hc.
  unfold Return in Hc. cbv beta iota in Hc. rewrite Hl in Hc.
  vm_compute in Hc. discriminate Hc.
Qed.

Lemma C5_witness :
  fst (heuristics_analyze (H := Demo.python) Demo.find_urls Demo.tld_extract example_text 0%nat)
  = Return example_verdict.
Proof.
  apply (C5_example_verdict (H := Demo.python) Demo.find_urls Demo.tld_extract 0%nat
           {| Tld.subdomain := []; Tld.domain := py "192.168.1.5"; Tld.suffix := [] |});
    vm_compute; reflexivity.
Defined.


Lemma C10_witness :
  exists final,
    fst (analyze_text (H := Demo.python) Demo.getenv true (Demo.fenced Demo.answer_level_only)
                      Demo.json_loads Demo.json_dumps Demo.py_str Demo.find_urls
                      Demo.tld_extract (py "hello") 0%nat) = Return final
    /\ risk_level final = PStr (py "Totally fine").
Proof.
  apply (C10_risk_level_verbatim (H := Demo.python) Demo.getenv true
           (Demo.fenced Demo.answer_level_only) Demo.json_loads Demo.json_dumps Demo.py_str
           Demo.find_urls Demo.tld_extract (py "hello") Demo.base 0%nat
           Demo.parsed_level_only (PStr (py "Totally fine")))
    with (heur := Demo.base).
  - split; reflexivity.
  - vm_compute. reflexivity.
  - vm_compute. reflexivity.
  - eexists. repeat split; vm_compute; reflexivity.
  - exists 0. vm_compute. reflexivity.
Defined.

(** What the adapter does with the answer
    [{"risk_level": "Dangerous", "score": null}], whatever the
    interpreter. *)
Lemma null_score_refined `{Python} :
  Demo.parsed_null_score !! "risk_level" = Some (PStr (py "Dangerous"))
  /\ answered (Demo.fenced Demo.answer_null_score) Demo.json_loads Demo.json_dumps
              (py "hello") Demo.base Demo.parsed_null_score
  /\ call_llm_to_refine Demo.getenv true (Demo.fenced Demo.answer_null_score)
                        Demo.json_loads Demo.json_dumps Demo.py_str (py "hello") Demo.base
     = Return Demo.base.
Proof.
  split; [reflexivity|].
  split; [eexists; repeat split; vm_compute; reflexivity|].
  vm_compute. reflexivity.
Qed.

(** The claim C10 fails: the answer [{"risk_level": "Dangerous", "score":
    null}] has a "risk_level" key, yet, whatever the interpreter, the
    risk level returned is not Dangerous: it is the one of the base
    Verdict, Safe. *)
Lemma C10_null_score_refuted :
  ~ (exists (P : Python) (final : Verdict),
       call_llm_to_refine Demo.getenv true (Demo.fenced Demo.answer_null_score)
                          Demo.json_loads Demo.json_dumps Demo.py_str
                          (py "hello") Demo.base = Return final
       /\ risk_level final = PStr (py "Dangerous")).
Proof.
  intros (P & final & Hc & Hl).
  destruct (null_score_refined (H := P)) as (_ & _ & Hr).
  rewrite Hr in Hc. injection Hc as <-. vm_compute in Hl. discriminate Hl.
Qed.

(** ** The other two examples of the specification *)

Example coffee_example :
  fst (heuristics_analyze (H := Demo.python) Demo.find_urls Demo.tld_extract
         (py "Hi, let's meet tomorrow for coffee.") 0%nat)
  = Return blank_verdict.
Proof. vm_compute. reflexivity. Qed.

Example shortener_example :
  fst (heuristics_analyze (H := Demo.python) Demo.find_urls Demo.tld_extract
         (py "Click here: https://bit.ly/abc123 to claim your prize!!") 0%nat)
  = Return {| risk_level := PStr (py "Safe");
              score := 18;
              reasons := [PStr (py "Contains 2 exclamation mark(s)");
                          PStr (found_links 1)];
              suspicious_links :=
                [link_dict {| url := py "https://bit.ly/abc123";
                              domain := py "bit.ly";
                              problem := Some (py "shortened URL") |}] |}.
Proof. vm_compute. reflexivity. Qed.

Example int_examples `{Python} :
  py_int PNone = Raise TypeError
  /\ py_int (PFloat (S754_finite true 5 (-1))) = Return (-2)
  /\ py_int (PFloat S754_nan) = Raise ValueError
  /\ py_int (PFloat (S754_infinity false)) = Raise OverflowError
  /\ py_int (PBool true) = Return 1.
Proof. repeat split; reflexivity. Qed.
(** * Further properties of the code *)

(** ** White space around the text *)

Section SpaceProps.

Context `{Python}.

Lemma rstrip_idem (s : str) : PyStr.rstrip (PyStr.rstrip s) = PyStr.rstrip s.
Proof.
  induction s as [|c r IH]; [reflexivity|].
  simpl. destruct (PyStr.rstrip r) as [|a r'] eqn:E.
  - destruct (PyStr.isspace c) eqn:Hc; [reflexivity|].
    simpl. rewrite Hc. reflexivity.
  - simpl. simpl in IH. rewrite IH. reflexivity.
Qed.

Lemma lstrip_head (s : str) :
  PyStr.lstrip s = []
  \/ exists c r, PyStr.lstrip s = c :: r /\ PyStr.isspace c = false.
Proof.
  induction s as [|c r IH]; simpl; [left; reflexivity|].
  destruct (PyStr.isspace c) eqn:Hc; [exact IH|]. right. eauto.
Qed.

Lemma rstrip_head (c : N) (r : str) :
  PyStr.isspace c = false -> exists r', PyStr.rstrip (c :: r) = c :: r'.
Proof.
  intros Hc. simpl. destruct (PyStr.rstrip r); [rewrite Hc|]; eauto.
Qed.

Lemma strip_idem (s : str) : PyStr.strip (PyStr.strip s) = PyStr.strip s.
Proof.
  unfold PyStr.strip.
  destruct (lstrip_head s) as [->|(c & r & -> & Hc)]; [reflexivity|].
  destruct (rstrip_head c r Hc) as [r' E].
  rewrite E at 1. simpl PyStr.lstrip. rewrite Hc. rewrite <- E. apply rstrip_idem.
Qed.

(** ** The score, check by check *)

(** X14.  On one URL: the problem is null exactly when the score is left
    as it was; otherwise between 6 and 38 is added. *)
Theorem link_problem_iff_cost (u_norm domain : str) (sc : Z) :
  (fst (link_checks u_norm domain sc) = None <-> snd (link_checks u_norm domain sc) = sc)
  /\ (fst (link_checks u_norm domain sc) <> None ->
      sc + 6 <= snd (link_checks u_norm domain sc) <= sc + 38).
Proof.
  rewrite link_checks_problem, link_checks_score.
  destruct (ip_flag u_norm), (shortener_flag u_norm), (hyphen_flag domain); simpl;
    (split; [split; intros Hx; (discriminate Hx || lia || reflexivity)
            |intros Hx; (lia || congruence)]).
Qed.

End SpaceProps.

Section EngineExtras.

Context `{Python} {W : Type}.
Variable find_urls : str -> St W (list str).
Variable tld_extract : str -> St W Tld.ExtractResult.

(** What the engine gives on a text that is not empty: an exception of a
    library, or the Verdict assembled from the checks on the text and on
    the URLs that the finder returned. *)
Lemma heuristics_analyze_cases (text : str) (w : W) :
  text <> [] ->
  match fst (heuristics_analyze find_urls tld_extract text w) with
  | inr v =>
      exists lfs : list LinkFinding,
        fst (find_urls (PyStr.strip text) w) = Return (map url lfs)
        /\ Forall problem_ok lfs
        /\ v = finish (fst (text_checks (PyStr.strip text)))
                      (snd (text_checks (PyStr.strip text)) + links_weight lfs)
                      (map link_dict lfs)
  | inl e => raised_by_library find_urls tld_extract text w e
  end.
Proof.
  intros Hne.
  destruct (fst (heuristics_analyze find_urls tld_extract text w)) as [e|v] eqn:E.
  - apply heuristics_analyze_raises. exact E.
  - apply (heuristics_analyze_inv find_urls tld_extract); assumption.
Qed.

(** The score of the Verdict of the engine is in [0, 100]. *)
Lemma heuristics_score_bounds (text : str) (w : W) (v : Verdict) :
  fst (heuristics_analyze find_urls tld_extract text w) = Return v ->
  0 <= score v <= 100.
Proof.
  destruct (decide (text = [])) as [->|Hne].
  - rewrite (heuristics_analyze_empty find_urls tld_extract w). intros [= <-]. simpl. lia.
  - intros Hv. destruct (heuristics_analyze_inv find_urls tld_extract _ _ _ Hne Hv) as (lfs & _ & _ & ->).
    rewrite finish_score. apply clamp_bounds.
Qed.

(** X9.  White space around a text that is not blank changes nothing:
    the engine returns for the text what it returns for the stripped text,
    and leaves the libraries in the same state. *)
Theorem surrounding_space_ignored (text : str) (w : W) :
  PyStr.strip text <> [] ->
  heuristics_analyze find_urls tld_extract text w
  = heuristics_analyze find_urls tld_extract (PyStr.strip text) w.
Proof.
  intros Hne. unfold heuristics_analyze.
  destruct text as [|c r]; [reflexivity|].
  destruct (PyStr.strip (c :: r)) as [|c' r'] eqn:E; [congruence|].
  change (negb (truthy_str (c :: r))) with false.
  change (negb (truthy_str (c' :: r'))) with false. cbv iota.
  rewrite <- E, strip_idem. reflexivity.
Qed.

(** X6.  The score of a text that is not empty is the sum of the weights
    of the checks that fired, 28, 30, 6 and 5 on the text and 20, 12 and 6
    on each URL found, cut at 100; the engine raises only what a library
    raised. *)
Theorem score_accounting (text : str) (w : W) :
  text <> [] ->
  match fst (heuristics_analyze find_urls tld_extract text w) with
  | inr v =>
      exists lfs : list LinkFinding,
        suspicious_links v = map link_dict lfs
        /\ fst (find_urls (PyStr.strip text) w) = Return (map url lfs)
        /\ score v = Z.min 100 (text_weight (PyStr.strip text) + links_weight lfs)
  | inl e => raised_by_library find_urls tld_extract text w e
  end.
Proof.
  intros Hne. pose proof (heuristics_analyze_cases text w Hne) as Hc.
  destruct (fst (heuristics_analyze find_urls tld_extract text w)) as [e|v]; [exact Hc|].
  destruct Hc as (lfs & Hu & _ & ->). exists lfs.
  rewrite finish_links, finish_score, text_checks_weight.
  repeat split; [exact Hu|].
  pose proof (text_weight_bounds (PyStr.strip text)).
  pose proof (links_weight_nonneg lfs). unfold clamp. lia.
Qed.

(** X7.  The Verdict carries between one and five reasons; the engine
    raises only what a library raised. *)
Theorem reasons_count (text : str) (w : W) :
  match fst (heuristics_analyze find_urls tld_extract text w) with
  | inr v => (1 <= length (reasons v) <= 5)%nat
  | inl e => raised_by_library find_urls tld_extract text w e
  end.
Proof.
  destruct (decide (text = [])) as [->|Hne]; [simpl; lia|].
  pose proof (heuristics_analyze_cases text w Hne) as Hc.
  destruct (fst (heuristics_analyze find_urls tld_extract text w)) as [e|v]; [exact Hc|].
  destruct Hc as (lfs & _ & _ & ->).
  destruct (text_checks_count (PyStr.strip text)) as [Hlen _].
  match goal with |- context [finish ?rs ?sc ?ls] =>
    pose proof (finish_reasons_count rs sc ls) end.
  lia.
Qed.

(** X8.  There is one link per URL found, duplicates included, and when
    a URL was found the last reason states how many; the engine raises
    only what a library raised. *)
Theorem links_counted (text : str) (w : W) :
  text <> [] ->
  match fst (heuristics_analyze find_urls tld_extract text w) with
  | inr v =>
      exists urls : list str,
        fst (find_urls (PyStr.strip text) w) = Return urls
        /\ length (suspicious_links v) = length urls
        /\ (urls <> [] -> last (reasons v) = Some (PStr (found_links (length urls))))
  | inl e => raised_by_library find_urls tld_extract text w e
  end.
Proof.
  intros Hne. pose proof (heuristics_analyze_cases text w Hne) as Hc.
  destruct (fst (heuristics_analyze find_urls tld_extract text w)) as [e|v]; [exact Hc|].
  destruct Hc as (lfs & Hu & _ & ->). exists (map url lfs).
  split; [exact Hu|].
  assert (length (map link_dict lfs) = length (map url lfs)) as Hlen
    by (rewrite !length_map; reflexivity).
  split; [rewrite finish_links; exact Hlen|].
  intros Hurls. rewrite finish_summary, Hlen; [reflexivity|].
  intros Hnil. destruct lfs; [apply Hurls; reflexivity|discriminate Hnil].
Qed.

(** X13.  When the URL finder returns no URL the engine returns a
    Verdict whose score is the weight of the checks on the text, 69 at
    most.  Without a sensitive phrase it is 39 at most and the level is
    not Dangerous; without an urgency phrase either it is 11 at most and
    the level is Safe. *)
Theorem no_url_levels (text : str) (w : W) :
  text <> [] ->
  fst (find_urls (PyStr.strip text) w) = Return [] ->
  exists v,
    fst (heuristics_analyze find_urls tld_extract text w) = Return v
    /\ score v = text_weight (PyStr.strip text) /\ score v <= 69
    /\ suspicious_links v = []
    /\ (found_in sensitive (PyStr.lower (PyStr.strip text)) = [] ->
        score v <= 39 /\ risk_level v <> PStr (py "Dangerous"))
    /\ (found_in sensitive (PyStr.lower (PyStr.strip text)) = [] ->
        found_in urgent (PyStr.lower (PyStr.strip text)) = [] ->
        score v <= 11 /\ risk_level v = PStr (py "Safe")).
Proof.
  intros Hne Hu.
  rewrite heuristics_analyze_run by assumption. cbv zeta.
  destruct (find_urls (PyStr.strip text) w) as [[e|urls] w1]; [discriminate Hu|].
  simpl in Hu. injection Hu as ->.
  simpl inspect_urls. unfold ret_st. simpl fst. simpl snd.
  eexists. split; [reflexivity|].
  rewrite finish_links, finish_score, finish_level, text_checks_weight.
  pose proof (text_weight_bounds (PyStr.strip text)) as Hb.
  assert (clamp (text_weight (PyStr.strip text)) = text_weight (PyStr.strip text)) as ->
    by (unfold clamp; lia).
  assert (found_in sensitive (PyStr.lower (PyStr.strip text)) = [] ->
          text_weight (PyStr.strip text) <= 39) as H39.
  { unfold text_weight. intros ->. simpl truthy_list. cbv iota.
    destruct (truthy_list _), (2 <=? _)%nat, (Re.search_caps6 _); lia. }
  assert (found_in sensitive (PyStr.lower (PyStr.strip text)) = [] ->
          found_in urgent (PyStr.lower (PyStr.strip text)) = [] ->
          text_weight (PyStr.strip text) <= 11) as H11.
  { unfold text_weight. intros -> ->. simpl truthy_list. cbv iota.
    destruct (2 <=? _)%nat, (Re.search_caps6 _); lia. }
  split; [reflexivity|]. split; [lia|]. split; [reflexivity|]. split.
  - intros Hs. split; [auto|]. specialize (H39 Hs). unfold label.
    destruct (Z.leb_spec 60 (text_weight (PyStr.strip text))); [lia|].
    destruct (30 <=? _); intros Hx; vm_compute in Hx; discriminate Hx.
  - intros Hs Hg. split; [auto|]. specialize (H11 Hs Hg). unfold label.
    destruct (Z.leb_spec 60 (text_weight (PyStr.strip text))); [lia|].
    destruct (Z.leb_spec 30 (text_weight (PyStr.strip text))); [lia|reflexivity].
Qed.

End EngineExtras.

(** ** The flags of a URL *)

Section FlagProps.

Context `{Python}.

(** The pattern starts with an [h]. *)
Lemma match_ip_head (c : N) (s : str) : c <> ch "h" -> Re.match_ip (c :: s) = None.
Proof.
  intros Hc. unfold Re.match_ip.
  assert (Re.lit (py "http") (c :: s) = None) as ->; [|reflexivity].
  change (py "http") with (ch "h" :: py "ttp"). cbn [Re.lit].
  destruct (N.eqb_spec (ch "h") c) as [E|_]; [congruence|reflexivity].
Qed.

Lemma search_ip_skip (c : N) (s : str) :
  c <> ch "h" -> Re.search_ip (c :: s) = Re.search_ip s.
Proof.
  intros Hc. rewrite search_ip_cons, match_ip_head by exact Hc.
  rewrite (bool_decide_eq_false_2 (is_Some None)) by (intros [x Hx]; discriminate Hx).
  reflexivity.
Qed.

(** X10.  A URL that does not begin with "http" is given the scheme
    [http://] before the checks; it is flagged for its IP address exactly
    when it begins with four runs of digits separated by dots, or holds
    further on an [http://] or [https://] followed by such runs. *)
Theorem bare_url_ip_flag (u : str) :
  PyStr.startswith (py "http") u = false ->
  ip_flag (normalize u) = quad_prefix u || ip_flag u.
Proof.
  intros Hs. unfold normalize. rewrite Hs. unfold ip_flag, quad_prefix.
  change (py "http://" ++ u)
    with (ch "h" :: ch "t" :: ch "t" :: ch "p" :: ch ":" :: ch "/" :: ch "/" :: u).
  rewrite search_ip_cons.
  rewrite !search_ip_skip by (vm_compute; discriminate).
  f_equal.
Qed.

Lemma startswith_app (p r : str) : PyStr.startswith p (p ++ r) = true.
Proof.
  induction p as [|a p IH]; [reflexivity|].
  simpl. rewrite N.eqb_refl. exact IH.
Qed.

(** [sub in s] holds exactly when [sub] stands somewhere in [s]. *)
Lemma contains_occurs (sub s : str) :
  PyStr.contains sub s = true <-> occurs sub s.
Proof.
  split.
  - induction s as [|c s IH]; simpl; intros Hc; apply orb_true_iff in Hc as [Hc|Hc].
    + apply startswith_inv in Hc as [r ->]. exists [], r. reflexivity.
    + discriminate.
    + apply startswith_inv in Hc as [r ->]. exists [], r. reflexivity.
    + destruct (IH Hc) as (pre & post & ->). exists (c :: pre), post. reflexivity.
  - intros (pre & post & ->). induction pre as [|c pre IH].
    + rewrite app_nil_l. destruct (sub ++ post) eqn:E; simpl; rewrite <- E;
        rewrite startswith_app; reflexivity.
    + rewrite <- app_comm_cons. simpl. rewrite IH. apply orb_true_r.
Qed.

(** X11.  A URL is flagged as shortened, and 12 is added, exactly when
    one of the five shortener names stands anywhere in the normalised
    URL: in the host, but also in the path or as a part of a longer
    name. *)
Theorem shortener_flag_by_occurrence (u domain : str) (sc : Z) :
  (names (py "shortened URL") (fst (link_checks (normalize u) domain sc)) = true
   <-> exists name, In name shorteners /\ occurs name (normalize u))
  /\ (names (py "shortened URL") (fst (link_checks (normalize u) domain sc)) = true
      -> sc + 12 <= snd (link_checks (normalize u) domain sc)).
Proof.
  assert (names (py "shortened URL") (fst (link_checks (normalize u) domain sc))
          = shortener_flag (normalize u)) as ->.
  { rewrite link_checks_problem.
    destruct (ip_flag _), (shortener_flag _), (hyphen_flag _); vm_compute; reflexivity. }
  split.
  - unfold shortener_flag. rewrite existsb_exists.
    split; intros (name & Hin & Hc); exists name; (split; [exact Hin|]);
      apply contains_occurs; exact Hc.
  - intros Hc. rewrite link_checks_score, Hc.
    destruct (ip_flag _), (hyphen_flag _); lia.
Qed.

End FlagProps.

Lemma count_app (c : N) (a b : str) :
  PyStr.count c (a ++ b) = (PyStr.count c a + PyStr.count c b)%nat.
Proof.
  induction a as [|x a IH]; [reflexivity|].
  simpl. destruct (x =? c)%N; rewrite IH; reflexivity.
Qed.

(** X15.  A link is flagged for its domain pattern exactly when the
    domain and the suffix that [tldextract] returns hold two hyphens or
    more between them. *)
Theorem hyphen_flag_by_count (ext : Tld.ExtractResult) :
  hyphen_flag (registrable ext) = true
  <-> (2 <= PyStr.count (ch "-") (Tld.domain ext) + PyStr.count (ch "-") (Tld.suffix ext))%nat.
Proof.
  unfold hyphen_flag, registrable.
  destruct (Tld.suffix ext) as [|c s] eqn:Es.
  - change (truthy_str []) with false. cbv iota.
    change (PyStr.count (ch "-") []) with 0%nat. rewrite Nat.add_0_r.
    destruct (Tld.domain ext) as [|a d].
    + simpl. split; [discriminate|lia].
    + change (truthy_str (a :: d)) with true. rewrite andb_true_l. apply Nat.leb_le.
  - change (truthy_str (c :: s)) with true. cbv iota.
    assert (truthy_str (Tld.domain ext ++ py "." ++ c :: s) = true) as ->
      by (destruct (Tld.domain ext); reflexivity).
    rewrite andb_true_l, !count_app.
    change (PyStr.count (ch "-") (py ".")) with 0%nat. rewrite Nat.add_0_l.
    apply Nat.leb_le.
Qed.

(** ** The JSON object in the answer of the remote model *)

Lemma find_ge (c : N) (s : str) : -1 <= PyStr.find c s.
Proof.
  induction s as [|b r IH]; simpl; [lia|].
  destruct (b =? c)%N; [lia|]. destruct (Z.eqb_spec (PyStr.find c r) (-1)); lia.
Qed.

Lemma rfind_ge (c : N) (s : str) : -1 <= PyStr.rfind c s.
Proof.
  induction s as [|b r IH]; simpl; [lia|].
  destruct (Z.eqb_spec (PyStr.rfind c r) (-1)); [destruct (b =? c)%N|]; lia.
Qed.

Lemma find_split (c : N) (s : str) :
  PyStr.find c s <> -1 ->
  exists pre post,
    s = pre ++ c :: post
    /\ Z.of_nat (length pre) = PyStr.find c s
    /\ PyStr.count c pre = 0%nat.
Proof.
  induction s as [|b r IH]; simpl; [congruence|].
  destruct (N.eqb_spec b c) as [->|Hbc].
  - intros _. exists [], r. repeat split.
  - destruct (Z.eqb_spec (PyStr.find c r) (-1)) as [E|E]; [congruence|]. intros _.
    destruct (IH E) as (pre & post & -> & Hl & Hc).
    exists (b :: pre), post. simpl.
    apply N.eqb_neq in Hbc. rewrite Hbc. repeat split; [lia|exact Hc].
Qed.

Lemma rfind_none (c : N) (s : str) :
  PyStr.rfind c s = -1 -> PyStr.count c s = 0%nat.
Proof.
  induction s as [|b r IH]; simpl; [reflexivity|].
  pose proof (rfind_ge c r).
  destruct (Z.eqb_spec (PyStr.rfind c r) (-1)) as [E|E]; [|lia].
  destruct (b =? c)%N; [discriminate|]. intros _. auto.
Qed.

Lemma rfind_split (c : N) (s : str) :
  PyStr.rfind c s <> -1 ->
  exists pre post,
    s = pre ++ c :: post
    /\ Z.of_nat (length pre) = PyStr.rfind c s
    /\ PyStr.count c post = 0%nat.
Proof.
  induction s as [|b r IH]; simpl; [congruence|].
  destruct (Z.eqb_spec (PyStr.rfind c r) (-1)) as [E|E].
  - destruct (N.eqb_spec b c) as [->|Hbc]; [|congruence]. intros _.
    exists [], r. repeat split. apply rfind_none. exact E.
  - intros _. destruct (IH E) as (pre & post & -> & Hl & Hc).
    exists (b :: pre), post. simpl. repeat split; [lia|exact Hc].
Qed.

Lemma app_split_prefix (p1 p2 x y : str) :
  p1 ++ x = p2 ++ y -> (length p1 <= length p2)%nat ->
  exists m, p2 = p1 ++ m /\ x = m ++ y.
Proof.
  revert p2. induction p1 as [|a p1 IH]; intros p2 E Hl.
  - exists p2. split; [reflexivity|exact E].
  - destruct p2 as [|b p2]; [simpl in Hl; lia|].
    simpl in E. injection E as -> E.
    destruct (IH p2 E) as (m & -> & ->); [simpl in Hl; lia|].
    exists m. split; reflexivity.
Qed.

(** X12.  When the answer holds an opening brace and, after it, a
    closing one, what goes to [json.loads] runs from the first opening
    brace to the last closing brace, both included; what stands before
    and after (a code fence, an explanation) is dropped. *)
Theorem json_object_braces (text_out : str) :
  has_json_object text_out = true ->
  exists pre mid post,
    text_out = pre ++ py "{" ++ mid ++ py "}" ++ post
    /\ json_object text_out = py "{" ++ mid ++ py "}"
    /\ PyStr.count (ch "{") pre = 0%nat
    /\ PyStr.count (ch "}") post = 0%nat.
Proof.
  unfold has_json_object, json_object, PyStr.slice. intros Hj.
  apply andb_true_iff in Hj as [Hj Hlt]. apply andb_true_iff in Hj as [Hi Hj].
  apply negb_true_iff, Z.eqb_neq in Hi, Hj. apply Z.gtb_lt in Hlt.
  destruct (find_split (ch "{") text_out Hi) as (p1 & q1 & E1 & L1 & C1).
  destruct (rfind_split (ch "}") text_out Hj) as (p2 & q2 & E2 & L2 & C2).
  rewrite <- L1, <- L2 in *.
  assert (p1 ++ ch "{" :: q1 = p2 ++ ch "}" :: q2) as E by congruence.
  destruct (app_split_prefix _ _ _ _ E) as (m & -> & Em); [lia|].
  rewrite length_app in Hlt.
  destruct m as [|a mid]; [simpl in Hlt; lia|].
  simpl in Em. injection Em as <- ->.
  exists p1, mid, q2.
  assert (text_out = p1 ++ (py "{" ++ mid ++ py "}") ++ q2) as Et.
  { rewrite E1. f_equal. change (py "{") with [ch "{"]. change (py "}") with [ch "}"].
    simpl. f_equal. rewrite <- app_assoc. reflexivity. }
  split; [rewrite Et, <- !app_assoc; reflexivity|].
  split; [|split; assumption].
  rewrite Nat2Z.id.
  replace (Z.to_nat (Z.of_nat (length (p1 ++ ch "{" :: mid)) + 1 - Z.of_nat (length p1)))
    with (length (py "{" ++ mid ++ py "}"))
    by (rewrite !length_app; change (py "{") with [ch "{"]; change (py "}") with [ch "}"];
        simpl; lia).
  rewrite Et at 1. rewrite drop_app_length. apply take_app_length.
Qed.

(** ** The adapter and the route, end to end *)

Section AdapterExtras.

Context `{Python}.
Variable getenv : str -> option str.
Variable _HAS_GEMINI : bool.
Variable generate_content : str -> Exc str.
Variable json_loads : str -> Exc pyval.
Variable json_dumps : Verdict -> str.
Variable py_str : pyval -> str.

(** The adapter keeps a score in [0, 100] there. *)
Lemma refine_score_bounds (text : str) (base v : Verdict) :
  0 <= score base <= 100 ->
  call_llm_to_refine getenv _HAS_GEMINI generate_content json_loads json_dumps py_str
                     text base = Return v ->
  0 <= score v <= 100.
Proof.
  intros Hb Hv.
  destruct (refine_cases getenv _HAS_GEMINI generate_content json_loads json_dumps py_str
              text base) as [E|(lvl & z & rs & ls & E)];
    rewrite E in Hv; injection Hv as <-; [exact Hb|simpl; lia].
Qed.

(** X4.  Whatever the remote model answers, the adapter raises nothing
    and, given a base Verdict with a score in [0, 100], returns a Verdict
    with a score in [0, 100]. *)
Theorem refine_keeps_score_bounds (text : str) (base : Verdict) :
  0 <= score base <= 100 ->
  exists v,
    call_llm_to_refine getenv _HAS_GEMINI generate_content json_loads json_dumps py_str
                       text base = Return v
    /\ 0 <= score v <= 100.
Proof.
  intros Hb.
  destruct (call_llm_to_refine_returns getenv _HAS_GEMINI generate_content json_loads
              json_dumps py_str text base) as [v Hv].
  exists v. split; [exact Hv|]. eapply refine_score_bounds; eassumption.
Qed.

Context {W : Type}.
Variable find_urls : str -> St W (list str).
Variable tld_extract : str -> St W Tld.ExtractResult.

(** The adapter calls no library: [analyze_text] leaves them as the
    engine did. *)
Lemma analyze_text_state (text : str) (w : W) :
  snd (analyze_text getenv _HAS_GEMINI generate_content json_loads json_dumps py_str
                    find_urls tld_extract text w)
  = snd (heuristics_analyze find_urls tld_extract text w).
Proof.
  rewrite analyze_text_unfold.
  destruct (heuristics_analyze find_urls tld_extract text w) as [[e|heur] w']; reflexivity.
Qed.

(** [analyze_text] returns a Verdict with a score in [0, 100], or raises
    what a library raised. *)
Lemma analyze_text_cases (text : str) (w : W) :
  match fst (analyze_text getenv _HAS_GEMINI generate_content json_loads json_dumps py_str
                          find_urls tld_extract text w) with
  | inr v => 0 <= score v <= 100
  | inl e => raised_by_library find_urls tld_extract text w e
  end.
Proof.
  rewrite analyze_text_unfold.
  destruct (heuristics_analyze find_urls tld_extract text w) as [[e|heur] w'] eqn:E; simpl fst.
  - apply heuristics_analyze_raises. rewrite E. reflexivity.
  - pose proof (heuristics_score_bounds find_urls tld_extract text w heur) as Hb.
    rewrite E in Hb. specialize (Hb eq_refl).
    destruct (call_llm_to_refine_returns getenv _HAS_GEMINI generate_content json_loads
                json_dumps py_str text heur) as [v Hv].
    rewrite Hv. eapply refine_score_bounds; eassumption.
Qed.

(** X5.  [analyze_text] returns a Verdict whose score is in [0, 100],
    with or without the remote model, or raises what a library raised to
    the engine: the adapter adds no exception.  With no key configured or
    no client library it does what the engine does. *)
Theorem analyze_text_outcome (text : str) (w : W) :
  match fst (analyze_text getenv _HAS_GEMINI generate_content json_loads json_dumps py_str
                          find_urls tld_extract text w) with
  | inr v => 0 <= score v <= 100
  | inl e => raised_by_library find_urls tld_extract text w e
  end
  /\ (truthy_opt (py_or (getenv (py "GEMINI_API_KEY")) (getenv (py "OPENAI_API_KEY"))) = false
      \/ _HAS_GEMINI = false ->
      analyze_text getenv _HAS_GEMINI generate_content json_loads json_dumps py_str
                   find_urls tld_extract text w
      = heuristics_analyze find_urls tld_extract text w).
Proof.
  split; [apply analyze_text_cases|].
  intros Hu. rewrite analyze_text_unfold.
  destruct (heuristics_analyze find_urls tld_extract text w) as [[e|heur] w']; [reflexivity|].
  rewrite refine_unavailable by exact Hu. reflexivity.
Qed.

(** X1.  A request with no body, a falsy body, or a dict whose "text" is
    missing, falsy or made of white space is answered with the client
    error; neither the engine nor a library is called. *)
Theorem analyze_no_text (body : option pyval) (w : W) :
  no_text body ->
  analyze getenv _HAS_GEMINI generate_content json_loads json_dumps py_str
          find_urls tld_extract body w
  = (Return Error400, w).
Proof.
  unfold no_text, analyze. destruct body as [v|]; [|reflexivity].
  intros [Hv|(d & -> & Hd)]; [rewrite Hv; reflexivity|].
  destruct (truthy (PDict d)); [|reflexivity].
  unfold py_get. destruct (d !! "text") as [t|]; [|reflexivity].
  unfold Return, default, id. simpl from_option. cbv beta iota.
  destruct Hd as [Ht|(s & -> & Hs)]; [rewrite Ht; reflexivity|].
  destruct (truthy (PStr s)); [|reflexivity]. simpl negb. cbv iota.
  rewrite (strip_all_space s Hs). reflexivity.
Qed.

(** X2.  A request whose "text" is a string that is not blank is never
    answered with the client error and raises nothing: when
    [analyze_text] returns a Verdict, the answer is that Verdict, whose
    score is in [0, 100]; when it raises, which only a library can cause,
    the answer is the server error made of the exception. *)
Theorem analyze_text_given (d : gmap string pyval) (s : str) (w : W) :
  d !! "text" = Some (PStr s) -> PyStr.strip s <> [] ->
  match fst (analyze_text getenv _HAS_GEMINI generate_content json_loads json_dumps py_str
                          find_urls tld_extract s w) with
  | inr v =>
      analyze getenv _HAS_GEMINI generate_content json_loads json_dumps py_str
              find_urls tld_extract (Some (PDict d)) w
      = (Return (Ok200 v), snd (heuristics_analyze find_urls tld_extract s w))
      /\ 0 <= score v <= 100
  | inl e =>
      analyze getenv _HAS_GEMINI generate_content json_loads json_dumps py_str
              find_urls tld_extract (Some (PDict d)) w
      = (Return (Error500 e), snd (heuristics_analyze find_urls tld_extract s w))
      /\ raised_by_library find_urls tld_extract s w e
  end.
Proof.
  intros Hd Hs.
  pose proof (analyze_text_cases s w) as Hc.
  pose proof (analyze_text_state s w) as Hst.
  assert (analyze getenv _HAS_GEMINI generate_content json_loads json_dumps py_str
                  find_urls tld_extract (Some (PDict d)) w
          = try_st (call result <- analyze_text getenv _HAS_GEMINI generate_content json_loads
                                     json_dumps py_str find_urls tld_extract s;
                    ret_st (Ok200 result))
                   (fun e => ret_st (Error500 e)) w) as ->.
  { unfold analyze.
    assert (truthy (PDict d) = true) as ->.
    { simpl. rewrite bool_decide_eq_false_2; [reflexivity|].
      intros ->. rewrite lookup_empty in Hd. discriminate. }
    unfold py_get. rewrite Hd. unfold Return, default, id. simpl from_option. cbv beta iota.
    destruct s as [|c r]; [exfalso; apply Hs; reflexivity|].
    change (negb (truthy (PStr (c :: r)))) with false. cbv iota.
    destruct (PyStr.strip (c :: r)) as [|a s] eqn:E; [congruence|].
    change (negb (truthy_str (a :: s))) with false. cbv iota. reflexivity. }
  unfold try_st, bind_st, ret_st.
  destruct (analyze_text _ _ _ _ _ _ _ _ s w) as [[e|v] w'];
    simpl in Hc, Hst; subst w'; split; solve [reflexivity | exact Hc].
Qed.

(** X3.  A request whose body is truthy but not a dict, or whose "text"
    is truthy but not a string, raises [AttributeError] before the [try]
    block: the route has no answer of its own for it. *)
Theorem analyze_not_a_string (body : pyval) (w : W) :
  truthy body = true ->
  (forall d, body = PDict d ->
     exists t, d !! "text" = Some t /\ truthy t = true /\ forall s, t <> PStr s) ->
  analyze getenv _HAS_GEMINI generate_content json_loads json_dumps py_str
          find_urls tld_extract (Some body) w
  = (Raise AttributeError, w).
Proof.
  intros Hb Hd. unfold analyze. rewrite Hb.
  destruct body; try reflexivity.
  destruct (Hd d eq_refl) as (t & Ht & Htt & Hns).
  unfold py_get. rewrite Ht. unfold Return, default, id. simpl from_option. cbv beta iota.
  rewrite Htt. simpl negb. cbv iota.
  destruct t; try reflexivity. exfalso. eapply Hns. reflexivity.
Qed.

End AdapterExtras.
(** ** These properties on concrete inputs *)

Lemma X1_witness :
  analyze (H := Demo.python) Demo.getenv true Demo.unreachable Demo.json_loads Demo.json_dumps
          Demo.py_str Demo.find_urls Demo.tld_extract
          (Some (PDict {[ "text" := PStr (py "   ") ]})) 0%nat
  = (Return Error400, 0%nat).
Proof.
  apply (analyze_no_text (H := Demo.python)). right. exists {[ "text" := PStr (py "   ") ]}.
  split; [reflexivity|]. rewrite lookup_singleton_eq.
  right. exists (py "   "). split; reflexivity.
Defined.

Lemma X2_witness :
  match fst (analyze_text (H := Demo.python) Demo.getenv true Demo.unreachable Demo.json_loads
                          Demo.json_dumps Demo.py_str Demo.find_urls Demo.tld_extract
                          (py "hello") 0%nat) with
  | inr v =>
      analyze (H := Demo.python) Demo.getenv true Demo.unreachable Demo.json_loads
              Demo.json_dumps Demo.py_str Demo.find_urls Demo.tld_extract
              (Some (PDict {[ "text" := PStr (py "hello") ]})) 0%nat
      = (Return (Ok200 v),
         snd (heuristics_analyze (H := Demo.python) Demo.find_urls Demo.tld_extract
                                 (py "hello") 0%nat))
      /\ 0 <= score v <= 100
  | inl e =>
      analyze (H := Demo.python) Demo.getenv true Demo.unreachable Demo.json_loads
              Demo.json_dumps Demo.py_str Demo.find_urls Demo.tld_extract
              (Some (PDict {[ "text" := PStr (py "hello") ]})) 0%nat
      = (Return (Error500 e),
         snd (heuristics_analyze (H := Demo.python) Demo.find_urls Demo.tld_extract
                                 (py "hello") 0%nat))
      /\ raised_by_library (H := Demo.python) Demo.find_urls Demo.tld_extract (py "hello") 0%nat e
  end.
Proof.
  apply (analyze_text_given (H := Demo.python));
    [apply lookup_singleton_eq|vm_compute; discriminate].
Defined.

Lemma X3_witness :
  analyze (H := Demo.python) Demo.getenv true Demo.unreachable Demo.json_loads Demo.json_dumps
          Demo.py_str Demo.find_urls Demo.tld_extract (Some (PList [PInt 1])) 0%nat
  = (Raise AttributeError, 0%nat).
Proof.
  apply (analyze_not_a_string (H := Demo.python)); [reflexivity|].
  intros d Hd. discriminate Hd.
Defined.

Lemma X4_witness :
  exists v,
    call_llm_to_refine (H := Demo.python) Demo.getenv true (Demo.fenced Demo.answer_ok)
                       Demo.json_loads Demo.json_dumps Demo.py_str (py "hello") Demo.base
    = Return v
    /\ 0 <= score v <= 100.
Proof.
  apply (refine_keeps_score_bounds (H := Demo.python)). simpl. lia.
Defined.

Lemma X5_witness :
  analyze_text (H := Demo.python) Demo.no_env true Demo.unreachable Demo.json_loads
               Demo.json_dumps Demo.py_str Demo.find_urls Demo.tld_extract example_text 0%nat
  = heuristics_analyze (H := Demo.python) Demo.find_urls Demo.tld_extract example_text 0%nat.
Proof.
  apply (analyze_text_outcome (H := Demo.python) Demo.no_env true Demo.unreachable
           Demo.json_loads Demo.json_dumps Demo.py_str Demo.find_urls Demo.tld_extract
           example_text 0%nat).
  left. reflexivity.
Defined.

Lemma X6_witness :
  match fst (heuristics_analyze (H := Demo.python) Demo.find_urls Demo.tld_extract
                                example_text 0%nat) with
  | inr v =>
      exists lfs : list LinkFinding,
        suspicious_links v = map link_dict lfs
        /\ fst (Demo.find_urls (PyStr.strip (H := Demo.python) example_text) 0%nat)
           = Return (map url lfs)
        /\ score v = Z.min 100 (text_weight (H := Demo.python)
                                  (PyStr.strip (H := Demo.python) example_text)
                                + links_weight (H := Demo.python) lfs)
  | inl e =>
      raised_by_library (H := Demo.python) Demo.find_urls Demo.tld_extract example_text 0%nat e
  end.
Proof.
  apply (score_accounting (H := Demo.python)). discriminate.
Defined.

Lemma X8_witness :
  match fst (heuristics_analyze (H := Demo.python) Demo.find_urls Demo.tld_extract
                                example_text 0%nat) with
  | inr v =>
      exists urls : list str,
        fst (Demo.find_urls (PyStr.strip (H := Demo.python) example_text) 0%nat) = Return urls
        /\ length (suspicious_links v) = length urls
        /\ (urls <> [] -> last (reasons v) = Some (PStr (found_links (length urls))))
  | inl e =>
      raised_by_library (H := Demo.python) Demo.find_urls Demo.tld_extract example_text 0%nat e
  end.
Proof.
  apply (links_counted (H := Demo.python) Demo.find_urls Demo.tld_extract example_text 0%nat).
  discriminate.
Defined.

Lemma X9_witness :
  heuristics_analyze (H := Demo.python) Demo.find_urls Demo.tld_extract
                     (py "  verify your login  ") 0%nat
  = heuristics_analyze (H := Demo.python) Demo.find_urls Demo.tld_extract
      (PyStr.strip (H := Demo.python) (py "  verify your login  ")) 0%nat.
Proof.
  apply (surrounding_space_ignored (H := Demo.python)). vm_compute. discriminate.
Defined.

Lemma X10_witness :
  ip_flag (H := Demo.python) (normalize (py "192.168.1.5/login"))
  = quad_prefix (H := Demo.python) (py "192.168.1.5/login")
    || ip_flag (H := Demo.python) (py "192.168.1.5/login").
Proof.
  apply (bare_url_ip_flag (H := Demo.python)). reflexivity.
Defined.

Lemma X11_witness :
  0 + 12 <= snd (link_checks (H := Demo.python)
                             (normalize (py "https://example.com/?next=bit.ly"))
                             (py "example.com") 0).
Proof.
  apply (shortener_flag_by_occurrence (H := Demo.python)
           (py "https://example.com/?next=bit.ly") (py "example.com") 0).
  vm_compute. reflexivity.
Defined.

Lemma X12_witness :
  exists pre mid post,
    Demo.answer_ok ++ py " done" = pre ++ py "{" ++ mid ++ py "}" ++ post
    /\ json_object (Demo.answer_ok ++ py " done") = py "{" ++ mid ++ py "}"
    /\ PyStr.count (ch "{") pre = 0%nat
    /\ PyStr.count (ch "}") post = 0%nat.
Proof.
  apply json_object_braces. vm_compute. reflexivity.
Defined.

Lemma X13_witness :
  exists v,
    fst (heuristics_analyze (H := Demo.python) Demo.find_urls Demo.tld_extract
           (py "Hi, let's meet tomorrow for coffee.") 0%nat) = Return v
    /\ score v <= 11 /\ risk_level v = PStr (py "Safe").
Proof.
  destruct (no_url_levels (H := Demo.python) Demo.find_urls Demo.tld_extract
              (py "Hi, let's meet tomorrow for coffee.") 0%nat)
    as (v & Hv & _ & _ & _ & _ & H11);
    [discriminate|vm_compute; reflexivity|].
  exists v. split; [exact Hv|]. apply H11; vm_compute; reflexivity.
Defined.

Lemma X14_witness :
  0 + 6 <= snd (link_checks (H := Demo.python) (py "https://bit.ly/abc123") (py "bit.ly") 0)
        <= 0 + 38.
Proof.
  apply (link_problem_iff_cost (H := Demo.python) (py "https://bit.ly/abc123") (py "bit.ly") 0).
  vm_compute. discriminate.
Defined.

(** ** A library that raises *)

(** The URL finder past its limit: the engine and [analyze_text] raise
    what it raised, and the route answers with the server error. *)
Example finder_raises :
  fst (heuristics_analyze (H := Demo.python) Demo.find_urls_raises Demo.tld_extract
                          example_text 0%nat)
    = Raise (LibraryError "URLExtractError")
  /\ analyze (H := Demo.python) Demo.no_env true Demo.unreachable Demo.json_loads
             Demo.json_dumps Demo.py_str Demo.find_urls_raises Demo.tld_extract
             (Some (PDict {[ "text" := PStr example_text ]})) 0%nat
     = (Return (Error500 (LibraryError "URLExtractError")), 1%nat).
Proof. split; vm_compute; reflexivity. Qed.
